(** * The admin API client of the travel site, and the admin contract it talks to

    The repository holds three variants of one small ES module, the
    axios-based client of the admin REST interface:

    - [src/frontend/src/api.js]  (module [ApiJs] below),
    - [src/unnamed/part_001]     (module [Part001]),
    - [src/unnamed/part_002]     (module [Part002]).

    Each file imports axios, creates one axios instance from a base URL taken
    from the build environment and exports a list of arrow functions, each
    of which resolves an identifier and calls one HTTP-verb method on it.

    The embedding is shallow: every exported arrow function is a Rocq
    function in a small monad [M] that threads the module scope (the
    bindings created by the file's [import] and [const] declarations) and
    may throw a JavaScript error.  Identifier resolution is an operation of
    that monad, so whether a name is bound is decided by running the
    module's declarations, not by the way a function is written down.  The
    request that axios would dispatch is the value a call returns. *)

From Stdlib Require Import ZArith String Ascii List Bool DecimalString.
From stdpp Require Import base option gmap strings list.

Local Open Scope Z_scope.

(** * JavaScript data *)

(** The integers every Number represents exactly and prints in plain
    decimal: those of magnitude below 2^53. *)
Definition is_safe_integer (n : Z) : bool := Z.abs n <? 2 ^ 53.

(** The values that flow through the wrappers: identifiers, payloads and
    the strings read from the environment.  A Number is modelled when it
    is a safe integer; fractions, larger magnitudes (which JavaScript
    prints in exponent form from 10^21 on), [NaN] and the infinities are
    not values of this type. *)
#[warnings="-register-all"]
Inductive value : Type :=
| VUndefined
| VNull
| VBool (b : bool)
| VNum (n : Z) (safe : is_safe_integer n = true)
| VStr (s : string)
| VArray (items : list value)
| VObject (fields : list (string * value)).

(** [sep.join(parts)] *)
Fixpoint join (sep : string) (parts : list string) : string :=
  match parts with
  | [] => ""
  | [p] => p
  | p :: rest => p +:+ sep +:+ join sep rest
  end.

(** The abstract operation ToString, applied by template literals to each
    substitution.  An array prints its elements joined by commas, with
    [null] and [undefined] printed as the empty string. *)
Fixpoint to_string (v : value) : string :=
  match v with
  | VUndefined => "undefined"
  | VNull => "null"
  | VBool true => "true"
  | VBool false => "false"
  | VNum n _ => NilZero.string_of_int (Z.to_int n)
  | VStr s => s
  | VArray items =>
      join "," (map (fun x => match x with
                              | VUndefined | VNull => ""
                              | _ => to_string x
                              end) items)
  | VObject _ => "[object Object]"
  end.

(** ToBoolean, as used by [||]. *)
Definition truthy (v : value) : bool :=
  match v with
  | VUndefined | VNull => false
  | VBool b => b
  | VNum n _ => negb (n =? 0)
  | VStr s => negb (String.eqb s "")
  | VArray _ | VObject _ => true
  end.

(** [a || b] *)
Definition js_or (a b : value) : value := if truthy a then a else b.

(** * The axios library, as far as the client uses it

    axios is a dependency, not part of the repository.  The definitions of
    this section follow the library's request pipeline (version 1.x):
    [isAbsoluteURL], [combineURLs], [buildFullPath], the defaults merged by
    [axios.create], and the verb methods [get], [delete], [post], [put]. *)

Inductive method : Type := GET | POST | PUT | DELETE.

#[global] Instance method_eq_dec : EqDecision method.
Proof. solve_decision. Defined.

(** The part of a request config that the client sets or that decides how
    a request is authenticated. *)
Record AxiosConfig : Type := mkConfig {
  baseURL : option string;           (* [None] is [undefined] *)
  withCredentials : option bool;
  headers : list (string * string)
}.

(** What the instance hands to its adapter. *)
Record Request : Type := mkRequest {
  req_method : method;
  req_url : string;                  (* after [buildFullPath] *)
  req_data : value;                  (* [VUndefined] when there is no body *)
  req_withCredentials : bool;
  req_headers : list (string * string)
}.

Definition is_slash (c : ascii) : bool := Ascii.eqb c "/".

Definition is_alpha (c : ascii) : bool :=
  let n := nat_of_ascii c in
  ((65 <=? n) && (n <=? 90) || (97 <=? n) && (n <=? 122))%nat.

Definition is_digit (c : ascii) : bool :=
  let n := nat_of_ascii c in ((48 <=? n) && (n <=? 57))%nat.

(** A character of the class [[a-z\d+\-.]], case-insensitive. *)
Definition is_scheme_char (c : ascii) : bool :=
  is_alpha c || is_digit c || Ascii.eqb c "+" || Ascii.eqb c "-"
  || Ascii.eqb c ".".

Definition starts_with_two_slashes (s : string) : bool :=
  match s with
  | String a (String b _) => is_slash a && is_slash b
  | _ => false
  end.

(** After the first letter of a scheme: [[a-z\d+\-.]*:] followed by [//]. *)
Fixpoint scheme_tail (s : string) : bool :=
  match s with
  | EmptyString => false
  | String c rest =>
      if Ascii.eqb c ":" then starts_with_two_slashes rest
      else if is_scheme_char c then scheme_tail rest
      else false
  end.

(** [isAbsoluteURL(url)]: the test [/^([a-z][a-z\d+\-.]*:)?\/\//i]. *)
Definition isAbsoluteURL (url : string) : bool :=
  starts_with_two_slashes url
  || match url with
     | String c rest => is_alpha c && scheme_tail rest
     | EmptyString => false
     end.

(** [s.replace(/\/?\/$/, '')]: one or two slashes at the end are removed. *)
Fixpoint strip_trailing_slash (s : string) : string :=
  match s with
  | EmptyString => EmptyString
  | String c rest =>
      if String.eqb s "/" || String.eqb s "//" then EmptyString
      else String c (strip_trailing_slash rest)
  end.

(** [s.replace(/^\/+/, '')]: all leading slashes are removed. *)
Fixpoint strip_leading_slashes (s : string) : string :=
  match s with
  | String c rest => if is_slash c then strip_leading_slashes rest else s
  | EmptyString => EmptyString
  end.

(** [combineURLs(baseURL, relativeURL)] *)
Definition combineURLs (base relative : string) : string :=
  if String.eqb relative "" then base
  else strip_trailing_slash base +:+ "/" +:+ strip_leading_slashes relative.

(** [buildFullPath(baseURL, requestedURL)] *)
Definition buildFullPath (base : option string) (requested : string) : string :=
  match base with
  | Some b =>
      if negb (String.eqb b "") && negb (isAbsoluteURL requested)
      then combineURLs b requested
      else requested
  | None => requested
  end.

(** [axios.defaults], restricted to the fields of [AxiosConfig]. *)
Definition axios_defaults : AxiosConfig :=
  {| baseURL := None;
     withCredentials := None;
     headers := [("Accept", "application/json, text/plain, */*")] |}.

(** [mergeConfig(defaults, config)]: a field of [config] that is set wins;
    header lists are merged. *)
Definition mergeConfig (d c : AxiosConfig) : AxiosConfig :=
  {| baseURL := match baseURL c with Some b => Some b | None => baseURL d end;
     withCredentials :=
       match withCredentials c with
       | Some w => Some w
       | None => withCredentials d
       end;
     headers := headers d ++ headers c |}.

(** The request an instance with defaults [cfg] dispatches for
    [instance.<verb>(url, data)] when no per-call config is given.  Its
    headers are the configured ones; those axios derives from the body
    (such as [Content-Type]) are left out. *)
Definition dispatch (cfg : AxiosConfig) (m : method) (url : string)
    (data : value) : Request :=
  {| req_method := m;
     req_url := buildFullPath (baseURL cfg) url;
     req_data := data;
     req_withCredentials := default false (withCredentials cfg);
     req_headers := headers cfg |}.

(** * Module scope and the evaluation monad *)

(** What an identifier of a module can be bound to. *)
Inductive binding : Type :=
| BData (v : value)                 (* a [const] holding plain data *)
| BAxios                            (* the default import of "axios" *)
| BInstance (cfg : AxiosConfig)     (* the result of [axios.create] *)
| BArrow (arity : nat).             (* an arrow function with that many
                                       formal parameters *)

Inductive error : Type :=
| ReferenceError (name : string)    (* "<name> is not defined" *)
| TypeError (what : string).

Inductive completion (A : Type) : Type :=
| Normal (a : A)
| Throw (e : error).
Arguments Normal {A} a.
Arguments Throw {A} e.

(** Computations that read and write the module scope and may throw. *)
Definition M (A : Type) : Type :=
  gmap string binding -> completion A * gmap string binding.

Definition ret {A} (a : A) : M A := fun σ => (Normal a, σ).

Definition throw {A} (e : error) : M A := fun σ => (Throw e, σ).

Definition bind {A B} (m : M A) (k : A -> M B) : M B :=
  fun σ =>
    match m σ with
    | (Normal a, σ') => k a σ'
    | (Throw e, σ') => (Throw e, σ')
    end.

#[global] Instance M_ret : MRet M := @ret.
#[global] Instance M_bind : MBind M := fun A B k m => bind m k.

(** Resolving an identifier: a name with no binding in the module throws a
    [ReferenceError].  (The only name the files take from the host is
    [process], which [getenv] below stands for.) *)
Definition ident (x : string) : M binding :=
  fun σ =>
    match σ !! x with
    | Some b => (Normal b, σ)
    | None => (Throw (ReferenceError x), σ)
    end.

(** [import x from ...], [const x = ...] and [export const x = ...]. *)
Definition declare (x : string) (b : binding) : M unit :=
  fun σ => (Normal tt, <[x := b]> σ).

(** A binding read where plain data is expected (the files read only
    [API_URL] this way). *)
Definition as_value (b : binding) : M value :=
  match b with
  | BData v => ret v
  | _ => throw (TypeError "not a plain value")
  end.

(** [callee.create(config)] *)
Definition axios_create (callee : binding) (config : AxiosConfig) : M binding :=
  match callee with
  | BAxios => ret (BInstance (mergeConfig axios_defaults config))
  | BInstance d => ret (BInstance (mergeConfig d config))
  | _ => throw (TypeError "create is not a function")
  end.

(** The defaults behind a callee that has verb methods. *)
Definition instance_of (callee : binding) (verb : string) : M AxiosConfig :=
  match callee with
  | BAxios => ret axios_defaults
  | BInstance cfg => ret cfg
  | _ => throw (TypeError (verb +:+ " is not a function"))
  end.

(** [callee.get(url)] *)
Definition axios_get (callee : binding) (url : string) : M Request :=
  cfg ← instance_of callee "get"; ret (dispatch cfg GET url VUndefined).

(** [callee.delete(url)] *)
Definition axios_delete (callee : binding) (url : string) : M Request :=
  cfg ← instance_of callee "delete"; ret (dispatch cfg DELETE url VUndefined).

(** [callee.post(url, data)] *)
Definition axios_post (callee : binding) (url : string) (data : value) : M Request :=
  cfg ← instance_of callee "post"; ret (dispatch cfg POST url data).

(** [callee.put(url, data)] *)
Definition axios_put (callee : binding) (url : string) (data : value) : M Request :=
  cfg ← instance_of callee "put"; ret (dispatch cfg PUT url data).

(** * Exported arrow functions *)

(** An arrow function with zero, one or two formal parameters. *)
Inductive arrow : Type :=
| Arrow0 (body : M Request)
| Arrow1 (body : value -> M Request)
| Arrow2 (body : value -> value -> M Request).

(** [f.length] *)
Definition arity (f : arrow) : nat :=
  match f with Arrow0 _ => 0 | Arrow1 _ => 1 | Arrow2 _ => 2 end%nat.

(** The [i]-th actual argument; a missing one is [undefined]. *)
Definition arg (i : nat) (args : list value) : value :=
  nth i args VUndefined.

(** [f(...args)]: surplus arguments are ignored. *)
Definition call (f : arrow) (args : list value) : M Request :=
  match f with
  | Arrow0 body => body
  | Arrow1 body => body (arg 0 args)
  | Arrow2 body => body (arg 0 args) (arg 1 args)
  end.

(** The comment headings under which the files group their exports. *)
Inductive resource : Type := Team | SiteSettings | Vehicles | Blogs | Packages.

#[global] Instance resource_eq_dec : EqDecision resource.
Proof. solve_decision. Defined.

Record export : Type := mkExport {
  ex_group : resource;
  ex_name : string;
  ex_fn : arrow
}.

(** [export const name = fn;] for each entry, in order. *)
Fixpoint declare_exports (es : list export) : M unit :=
  match es with
  | [] => ret tt
  | e :: rest =>
      declare (ex_name e) (BArrow (arity (ex_fn e)));; declare_exports rest
  end.

Definition find_export (es : list export) (name : string) : option export :=
  List.find (fun e => String.eqb (ex_name e) name) es.

Definition group_of (es : list export) (r : resource) : list export :=
  List.filter (fun e => bool_decide (ex_group e = r)) es.

(** The last character of [s] is a slash. *)
Fixpoint ends_with_slash (s : string) : bool :=
  match s with
  | EmptyString => false
  | String c EmptyString => is_slash c
  | String _ rest => ends_with_slash rest
  end.

(** [process.env.<name>]: a string, or [undefined] when the variable is not
    set at build time. *)
Definition getenv (env : gmap string string) (name : string) : value :=
  match env !! name with
  | Some s => VStr s
  | None => VUndefined
  end.

(** An optional string field of an object literal. *)
Definition opt_string (v : value) : option string :=
  match v with
  | VUndefined => None
  | _ => Some (to_string v)
  end.

(** * [src/frontend/src/api.js] *)
Module ApiJs.
Section WithEnv.
Variable env : gmap string string.

(** [const API_URL = process.env.REACT_APP_API_URL || "http://localhost:8000";] *)
Definition API_URL : value :=
  js_or (getenv env "REACT_APP_API_URL") (VStr "http://localhost:8000").

(** [const api = axios.create({ baseURL: `${API_URL}/api`, withCredentials: false });] *)
Definition api : M binding :=
  lib ← ident "axios";
  url ← ident "API_URL" ≫= as_value;
  axios_create lib
    {| baseURL := Some (to_string url +:+ "/api");
       withCredentials := Some false;
       headers := [] |}.

(* ===== TEAM ===== *)
Definition fetchTeam : arrow :=
  Arrow0 (o ← ident "api"; axios_get o "/admin/team").
Definition addTeamMember : arrow :=
  Arrow1 (fun data => o ← ident "api"; axios_post o "/admin/team" data).
Definition updateTeamMember : arrow :=
  Arrow2 (fun id data =>
    o ← ident "api"; axios_put o ("/admin/team/" +:+ to_string id) data).
Definition deleteTeamMember : arrow :=
  Arrow1 (fun id =>
    o ← ident "api"; axios_delete o ("/admin/team/" +:+ to_string id)).

(* ===== SITE SETTINGS ===== *)
Definition fetchSiteSettings : arrow :=
  Arrow0 (o ← ident "api"; axios_get o "/admin/site-settings").
Definition updateSiteSettings : arrow :=
  Arrow1 (fun data => o ← ident "api"; axios_put o "/admin/site-settings" data).

(* ===== VEHICLES ===== *)
Definition fetchVehicles : arrow :=
  Arrow0 (o ← ident "api"; axios_get o "/admin/vehicles").
Definition createVehicle : arrow :=
  Arrow1 (fun data => o ← ident "api"; axios_post o "/admin/vehicles" data).
Definition updateVehicle : arrow :=
  Arrow2 (fun id data =>
    o ← ident "api"; axios_put o ("/admin/vehicles/" +:+ to_string id) data).
Definition deleteVehicle : arrow :=
  Arrow1 (fun id =>
    o ← ident "api"; axios_delete o ("/admin/vehicles/" +:+ to_string id)).

(* ===== BLOGS ===== *)
Definition fetchBlogs : arrow :=
  Arrow0 (o ← ident "api"; axios_get o "/admin/blogs").
Definition createBlog : arrow :=
  Arrow1 (fun data => o ← ident "api"; axios_post o "/admin/blogs" data).
Definition updateBlog : arrow :=
  Arrow2 (fun id data =>
    o ← ident "api"; axios_put o ("/admin/blogs/" +:+ to_string id) data).
Definition deleteBlog : arrow :=
  Arrow1 (fun id =>
    o ← ident "api"; axios_delete o ("/admin/blogs/" +:+ to_string id)).

(* Tour Packages *)
Definition fetchPackages : arrow :=
  Arrow0 (o ← ident "API"; axios_get o "/packages").
Definition createPackage : arrow :=
  Arrow1 (fun data => o ← ident "API"; axios_post o "/admin/packages" data).
Definition updatePackage : arrow :=
  Arrow2 (fun id data =>
    o ← ident "API"; axios_put o ("/admin/packages/" +:+ to_string id) data).
Definition deletePackage : arrow :=
  Arrow1 (fun id =>
    o ← ident "API"; axios_delete o ("/admin/packages/" +:+ to_string id)).

(** The named exports, in source order. *)
Definition exports : list export :=
  [ mkExport Team "fetchTeam" fetchTeam;
    mkExport Team "addTeamMember" addTeamMember;
    mkExport Team "updateTeamMember" updateTeamMember;
    mkExport Team "deleteTeamMember" deleteTeamMember;
    mkExport SiteSettings "fetchSiteSettings" fetchSiteSettings;
    mkExport SiteSettings "updateSiteSettings" updateSiteSettings;
    mkExport Vehicles "fetchVehicles" fetchVehicles;
    mkExport Vehicles "createVehicle" createVehicle;
    mkExport Vehicles "updateVehicle" updateVehicle;
    mkExport Vehicles "deleteVehicle" deleteVehicle;
    mkExport Blogs "fetchBlogs" fetchBlogs;
    mkExport Blogs "createBlog" createBlog;
    mkExport Blogs "updateBlog" updateBlog;
    mkExport Blogs "deleteBlog" deleteBlog;
    mkExport Packages "fetchPackages" fetchPackages;
    mkExport Packages "createPackage" createPackage;
    mkExport Packages "updatePackage" updatePackage;
    mkExport Packages "deletePackage" deletePackage ].

(** Evaluation of the module, top to bottom; the last statement is
    [export default api;]. *)
Definition module : M binding :=
  declare "axios" BAxios;;
  declare "API_URL" (BData API_URL);;
  inst ← api; declare "api" inst;;
  declare_exports exports;;
  ident "api".

(** The module scope once the file has been evaluated. *)
Definition scope : gmap string binding := snd (module ∅).

(** A call of an exported function by an importer. *)
Definition invoke (f : arrow) (args : list value)
  : completion Request * gmap string binding :=
  call f args scope.

(** The backend the build points at: the text of [API_URL]. *)
Definition origin : string := to_string API_URL.

(** The defaults of the instance that [api] evaluates to. *)
Definition instance : AxiosConfig :=
  {| baseURL := Some (origin +:+ "/api");
     withCredentials := Some false;
     headers := headers axios_defaults |}.
End WithEnv.
End ApiJs.

(** * [src/unnamed/part_001] *)
Module Part001.
Section WithEnv.
Variable env : gmap string string.

(** [const API = axios.create({ baseURL: process.env.REACT_APP_BACKEND_URL });] *)
Definition API : M binding :=
  lib ← ident "axios";
  axios_create lib
    {| baseURL := opt_string (getenv env "REACT_APP_BACKEND_URL");
       withCredentials := None;
       headers := [] |}.

(* Example: Team *)
Definition fetchTeam : arrow :=
  Arrow0 (o ← ident "API"; axios_get o "/api/admin/team").
Definition addTeamMember : arrow :=
  Arrow1 (fun data => o ← ident "API"; axios_post o "/api/admin/team" data).
Definition updateTeamMember : arrow :=
  Arrow2 (fun id data =>
    o ← ident "API"; axios_put o ("/api/admin/team/" +:+ to_string id) data).
Definition deleteTeamMember : arrow :=
  Arrow1 (fun id =>
    o ← ident "API"; axios_delete o ("/api/admin/team/" +:+ to_string id)).

(* Example: Site Settings *)
Definition fetchSiteSettings : arrow :=
  Arrow0 (o ← ident "API"; axios_get o "/api/admin/site-settings").
Definition updateSiteSettings : arrow :=
  Arrow1 (fun data =>
    o ← ident "API"; axios_put o "/api/admin/site-settings" data).

(* Example: Vehicles *)
Definition fetchVehicles : arrow :=
  Arrow0 (o ← ident "API"; axios_get o "/api/admin/vehicles").
Definition createVehicle : arrow :=
  Arrow1 (fun data => o ← ident "API"; axios_post o "/api/admin/vehicles" data).
Definition updateVehicle : arrow :=
  Arrow2 (fun id data =>
    o ← ident "API";
    axios_put o ("/api/admin/vehicles/" +:+ to_string id) data).
Definition deleteVehicle : arrow :=
  Arrow1 (fun id =>
    o ← ident "API"; axios_delete o ("/api/admin/vehicles/" +:+ to_string id)).

(* Example: Blogs *)
Definition fetchBlogs : arrow :=
  Arrow0 (o ← ident "API"; axios_get o "/api/admin/blogs").
Definition createBlog : arrow :=
  Arrow1 (fun data => o ← ident "API"; axios_post o "/api/admin/blogs" data).
Definition updateBlog : arrow :=
  Arrow2 (fun id data =>
    o ← ident "API"; axios_put o ("/api/admin/blogs/" +:+ to_string id) data).
Definition deleteBlog : arrow :=
  Arrow1 (fun id =>
    o ← ident "API"; axios_delete o ("/api/admin/blogs/" +:+ to_string id)).

Definition exports : list export :=
  [ mkExport Team "fetchTeam" fetchTeam;
    mkExport Team "addTeamMember" addTeamMember;
    mkExport Team "updateTeamMember" updateTeamMember;
    mkExport Team "deleteTeamMember" deleteTeamMember;
    mkExport SiteSettings "fetchSiteSettings" fetchSiteSettings;
    mkExport SiteSettings "updateSiteSettings" updateSiteSettings;
    mkExport Vehicles "fetchVehicles" fetchVehicles;
    mkExport Vehicles "createVehicle" createVehicle;
    mkExport Vehicles "updateVehicle" updateVehicle;
    mkExport Vehicles "deleteVehicle" deleteVehicle;
    mkExport Blogs "fetchBlogs" fetchBlogs;
    mkExport Blogs "createBlog" createBlog;
    mkExport Blogs "updateBlog" updateBlog;
    mkExport Blogs "deleteBlog" deleteBlog ].

(** The last statement is [export default API;]. *)
Definition module : M binding :=
  declare "axios" BAxios;;
  inst ← API; declare "API" inst;;
  declare_exports exports;;
  ident "API".

Definition scope : gmap string binding := snd (module ∅).

Definition invoke (f : arrow) (args : list value)
  : completion Request * gmap string binding :=
  call f args scope.

(** The backend the build points at: [REACT_APP_BACKEND_URL] as axios
    joins it to a path (the empty string when the variable is unset, so
    that URLs are relative to the page). *)
Definition origin : string :=
  strip_trailing_slash (default "" (env !! "REACT_APP_BACKEND_URL")).

(** The defaults of the instance that [API] evaluates to. *)
Definition instance : AxiosConfig :=
  {| baseURL := env !! "REACT_APP_BACKEND_URL";
     withCredentials := None;
     headers := headers axios_defaults |}.
End WithEnv.
End Part001.

(** * [src/unnamed/part_002] *)
Module Part002.
Section WithEnv.
Variable env : gmap string string.

(** [const API_URL = process.env.REACT_APP_API_URL || "http://localhost:8000";] *)
Definition API_URL : value :=
  js_or (getenv env "REACT_APP_API_URL") (VStr "http://localhost:8000").

(** [const api = axios.create({ baseURL: `${API_URL}/api`, withCredentials: false });] *)
Definition api : M binding :=
  lib ← ident "axios";
  url ← ident "API_URL" ≫= as_value;
  axios_create lib
    {| baseURL := Some (to_string url +:+ "/api");
       withCredentials := Some false;
       headers := [] |}.

(* Example: Team *)
Definition fetchTeam : arrow :=
  Arrow0 (o ← ident "API"; axios_get o "/api/admin/team").
Definition addTeamMember : arrow :=
  Arrow1 (fun data => o ← ident "API"; axios_post o "/api/admin/team" data).
Definition updateTeamMember : arrow :=
  Arrow2 (fun id data =>
    o ← ident "API"; axios_put o ("/api/admin/team/" +:+ to_string id) data).
Definition deleteTeamMember : arrow :=
  Arrow1 (fun id =>
    o ← ident "API"; axios_delete o ("/api/admin/team/" +:+ to_string id)).

(* Example: Site Settings *)
Definition fetchSiteSettings : arrow :=
  Arrow0 (o ← ident "API"; axios_get o "/api/admin/site-settings").
Definition updateSiteSettings : arrow :=
  Arrow1 (fun data =>
    o ← ident "API"; axios_put o "/api/admin/site-settings" data).

(* Example: Vehicles *)
Definition fetchVehicles : arrow :=
  Arrow0 (o ← ident "API"; axios_get o "/api/admin/vehicles").
Definition createVehicle : arrow :=
  Arrow1 (fun data => o ← ident "API"; axios_post o "/api/admin/vehicles" data).
Definition updateVehicle : arrow :=
  Arrow2 (fun id data =>
    o ← ident "API";
    axios_put o ("/api/admin/vehicles/" +:+ to_string id) data).
Definition deleteVehicle : arrow :=
  Arrow1 (fun id =>
    o ← ident "API"; axios_delete o ("/api/admin/vehicles/" +:+ to_string id)).

(* Example: Blogs *)
Definition fetchBlogs : arrow :=
  Arrow0 (o ← ident "API"; axios_get o "/api/admin/blogs").
Definition createBlog : arrow :=
  Arrow1 (fun data => o ← ident "API"; axios_post o "/api/admin/blogs" data).
Definition updateBlog : arrow :=
  Arrow2 (fun id data =>
    o ← ident "API"; axios_put o ("/api/admin/blogs/" +:+ to_string id) data).
Definition deleteBlog : arrow :=
  Arrow1 (fun id =>
    o ← ident "API"; axios_delete o ("/api/admin/blogs/" +:+ to_string id)).

Definition exports : list export :=
  [ mkExport Team "fetchTeam" fetchTeam;
    mkExport Team "addTeamMember" addTeamMember;
    mkExport Team "updateTeamMember" updateTeamMember;
    mkExport Team "deleteTeamMember" deleteTeamMember;
    mkExport SiteSettings "fetchSiteSettings" fetchSiteSettings;
    mkExport SiteSettings "updateSiteSettings" updateSiteSettings;
    mkExport Vehicles "fetchVehicles" fetchVehicles;
    mkExport Vehicles "createVehicle" createVehicle;
    mkExport Vehicles "updateVehicle" updateVehicle;
    mkExport Vehicles "deleteVehicle" deleteVehicle;
    mkExport Blogs "fetchBlogs" fetchBlogs;
    mkExport Blogs "createBlog" createBlog;
    mkExport Blogs "updateBlog" updateBlog;
    mkExport Blogs "deleteBlog" deleteBlog ].

(** The last statement is [export default API;]. *)
Definition module : M binding :=
  declare "axios" BAxios;;
  declare "API_URL" (BData API_URL);;
  inst ← api; declare "api" inst;;
  declare_exports exports;;
  ident "API".

(** The bindings the file's declarations create.  Evaluation of the file
    stops at its last statement (see [module]); this is the scope in
    which the exported functions would run. *)
Definition scope : gmap string binding := snd (module ∅).

Definition invoke (f : arrow) (args : list value)
  : completion Request * gmap string binding :=
  call f args scope.

(** The defaults of the instance that [api] evaluates to. *)
Definition instance : AxiosConfig :=
  {| baseURL := Some (to_string API_URL +:+ "/api");
     withCredentials := Some false;
     headers := headers axios_defaults |}.
End WithEnv.
End Part002.

(** * Reading requests *)

(** A backend origin such as [https://example.org] or
    [http://localhost:8000]: scheme, host and optional port, hence not
    empty and with no slash at its end. *)
Definition is_origin (o : string) : bool :=
  negb (String.eqb o "") && negb (ends_with_slash o).

Definition lower (c : ascii) : ascii :=
  let n := nat_of_ascii c in
  if ((65 <=? n) && (n <=? 90))%nat then ascii_of_nat (n + 32) else c.

Fixpoint lowercase (s : string) : string :=
  match s with
  | EmptyString => EmptyString
  | String c rest => String (lower c) (lowercase rest)
  end.

(** Header names compare without regard to case. *)
Definition is_authorization (h : string * string) : bool :=
  String.eqb (lowercase h.1) "authorization".

(** A request that carries no credential: cookies are not attached to it
    ([withCredentials] is off) and it has no [Authorization] header. *)
Definition unauthenticated (r : Request) : bool :=
  negb (req_withCredentials r) && negb (existsb is_authorization (req_headers r)).

(** The outcome is a request with this verb, URL and body. *)
Definition issues (out : completion Request * gmap string binding)
    (m : method) (url : string) (data : value) : Prop :=
  exists r, out.1 = Normal r /\ req_method r = m /\ req_url r = url
            /\ req_data r = data.

(** The URL of the request of an outcome, if it is one. *)
Definition url_of (out : completion Request * gmap string binding)
  : option string :=
  match out.1 with
  | Normal r => Some (req_url r)
  | Throw _ => None
  end.

(** Every request of the outcome, if there is one, satisfies [P]. *)
Definition request_satisfies (P : Request -> Prop)
    (out : completion Request * gmap string binding) : Prop :=
  match out.1 with
  | Normal r => P r
  | Throw _ => True
  end.

Definition verb_name (m : method) : string :=
  match m with
  | GET => "get"
  | POST => "post"
  | PUT => "put"
  | DELETE => "delete"
  end.

(** The expression [x.<verb>(url, data)] for an identifier [x] ([data] is
    [VUndefined] for the verbs that take none). *)
Definition request_via (x : string) (m : method) (url : string)
    (data : value) : M Request :=
  o ← ident x;
  cfg ← instance_of o (verb_name m);
  ret (dispatch cfg m url data).

(** [f] is a wrapper around [x.<verb>(url, data)]: whatever the arguments,
    calling [f] is evaluating that one expression. *)
Definition wraps (f : arrow) (x : string) (m : method)
    (url : list value -> string) (data : list value -> value) : Prop :=
  forall args, call f args = request_via x m (url args) (data args).

(** The path segment of a collection. *)
Definition slug (r : resource) : string :=
  match r with
  | Team => "team"
  | SiteSettings => "site-settings"
  | Vehicles => "vehicles"
  | Blogs => "blogs"
  | Packages => "packages"
  end.

(** The exports grouped under [r] reach the collection at
    [<origin>/api/admin/<r>] and its members at [<origin>/api/admin/<r>/<id>]
    when called through [invoke]. *)
Definition crud_routes
    (invoke : arrow -> list value -> completion Request * gmap string binding)
    (origin : string) (es : list export) (r : resource) : Prop :=
  exists l c u d,
    group_of es r = [l; c; u; d]
    /\ issues (invoke (ex_fn l) []) GET
         (origin +:+ "/api/admin/" +:+ slug r) VUndefined
    /\ (forall data,
          issues (invoke (ex_fn c) [data]) POST
            (origin +:+ "/api/admin/" +:+ slug r) data)
    /\ (forall id data,
          issues (invoke (ex_fn u) [id; data]) PUT
            (origin +:+ "/api/admin/" +:+ slug r +:+ "/" +:+ to_string id) data)
    /\ (forall id,
          issues (invoke (ex_fn d) [id]) DELETE
            (origin +:+ "/api/admin/" +:+ slug r +:+ "/" +:+ to_string id)
            VUndefined).

(** Site settings are fetched and updated at [<origin>/api/admin/site-settings]. *)
Definition settings_routes
    (invoke : arrow -> list value -> completion Request * gmap string binding)
    (origin : string) (es : list export) : Prop :=
  exists f u,
    group_of es SiteSettings = [f; u]
    /\ issues (invoke (ex_fn f) []) GET
         (origin +:+ "/api/admin/site-settings") VUndefined
    /\ (forall data,
          issues (invoke (ex_fn u) [data]) PUT
            (origin +:+ "/api/admin/site-settings") data).

(** The exports grouped under site settings are a fetch (no parameter, a
    GET) and an update (one parameter, a PUT with it as body) of one path,
    and nothing else. *)
Definition settings_interface (es : list export) : Prop :=
  exists f u x path,
    group_of es SiteSettings = [f; u]
    /\ arity (ex_fn f) = 0%nat
    /\ wraps (ex_fn f) x GET (fun _ => path) (fun _ => VUndefined)
    /\ arity (ex_fn u) = 1%nat
    /\ wraps (ex_fn u) x PUT (fun _ => path) (fun args => arg 0 args).

(** A request to [url] is a GET or a PUT. *)
Definition get_or_put_at (url : string) (r : Request) : Prop :=
  req_url r <> url \/ req_method r = GET \/ req_method r = PUT.

(** Every call of every export in [es] issues a request, and it satisfies [P]. *)
Definition every_call_issues
    (invoke : arrow -> list value -> completion Request * gmap string binding)
    (P : Request -> Prop) (es : list export) : Prop :=
  Forall (fun e => forall args,
            exists r, (invoke (ex_fn e) args).1 = Normal r /\ P r) es.

(** Whatever request a call of an export in [es] issues satisfies [P]. *)
Definition every_request
    (invoke : arrow -> list value -> completion Request * gmap string binding)
    (P : Request -> Prop) (es : list export) : Prop :=
  Forall (fun e => forall args, request_satisfies P (invoke (ex_fn e) args)) es.

(** The exports outside the section of [r]. *)
Definition without (r : resource) (es : list export) : list export :=
  List.filter (fun e => negb (bool_decide (ex_group e = r))) es.

(** The exports grouped under [r] are exactly four operations on the
    collection: a list function without parameter that issues a GET, a
    create function of one parameter that issues a POST with it as body,
    an update function of two parameters that issues a PUT for the member
    named by the first with the second as body, and a delete function of
    one parameter that issues a DELETE for the member it names.  Missing
    arguments read as [undefined], surplus ones are ignored. *)
Definition crud_operations
    (invoke : arrow -> list value -> completion Request * gmap string binding)
    (origin : string) (es : list export) (r : resource) : Prop :=
  exists l c u d,
    group_of es r = [l; c; u; d]
    /\ map (fun e => arity (ex_fn e)) [l; c; u; d] = [0; 1; 2; 1]%nat
    /\ (forall args,
          issues (invoke (ex_fn l) args) GET
            (origin +:+ "/api/admin/" +:+ slug r) VUndefined)
    /\ (forall args,
          issues (invoke (ex_fn c) args) POST
            (origin +:+ "/api/admin/" +:+ slug r) (nth 0 args VUndefined))
    /\ (forall args,
          issues (invoke (ex_fn u) args) PUT
            (origin +:+ "/api/admin/" +:+ slug r +:+ "/"
               +:+ to_string (nth 0 args VUndefined))
            (nth 1 args VUndefined))
    /\ (forall args,
          issues (invoke (ex_fn d) args) DELETE
            (origin +:+ "/api/admin/" +:+ slug r +:+ "/"
               +:+ to_string (nth 0 args VUndefined))
            VUndefined).

(** The same for the package functions, whose list function asks for
    [<origin>/api/packages]. *)
Definition package_operations
    (invoke : arrow -> list value -> completion Request * gmap string binding)
    (origin : string) (es : list export) : Prop :=
  exists l c u d,
    group_of es Packages = [l; c; u; d]
    /\ map (fun e => arity (ex_fn e)) [l; c; u; d] = [0; 1; 2; 1]%nat
    /\ (forall args,
          issues (invoke (ex_fn l) args) GET
            (origin +:+ "/api/packages") VUndefined)
    /\ (forall args,
          issues (invoke (ex_fn c) args) POST
            (origin +:+ "/api/admin/packages") (nth 0 args VUndefined))
    /\ (forall args,
          issues (invoke (ex_fn u) args) PUT
            (origin +:+ "/api/admin/packages/"
               +:+ to_string (nth 0 args VUndefined))
            (nth 1 args VUndefined))
    /\ (forall args,
          issues (invoke (ex_fn d) args) DELETE
            (origin +:+ "/api/admin/packages/"
               +:+ to_string (nth 0 args VUndefined))
            VUndefined).

(** Calling in an arbitrary scope [σ] rather than in the scope of a file. *)
Definition call_in (σ : gmap string binding) (f : arrow) (args : list value)
  : completion Request * gmap string binding :=
  call f args σ.

(** The scope of [api.js] with, in addition, [API] bound to the instance
    the file creates. *)
Definition scope_binding_API (env : gmap string string)
  : gmap string binding :=
  <["API" := BInstance (ApiJs.instance env)]> (ApiJs.scope env).

(** The outcome [out] of a call made in scope [σ] is the request
    [x.<verb>(path, data)] of an instance whose current defaults are
    [cfg], and nothing else: verb [m], the URL axios builds from the base
    URL of [cfg] and [path], body [data], credentials flag and headers as
    [cfg] has them; and the scope, with the defaults of the instance in
    it, is as it was. *)
Definition sends (σ : gmap string binding) (cfg : AxiosConfig) (m : method)
    (path : string) (data : value)
    (out : completion Request * gmap string binding) : Prop :=
  out.2 = σ
  /\ exists r,
       out.1 = Normal r
       /\ req_method r = m
       /\ req_url r = buildFullPath (baseURL cfg) path
       /\ req_data r = data
       /\ req_withCredentials r = default false (withCredentials cfg)
       /\ req_headers r = headers cfg.

(** The four exports grouped under [r] are wrappers around the four verb
    methods of the object named [x]: in every scope that binds [x] to an
    axios instance, whatever its defaults, the list function sends
    [GET list_path], the create function [POST path] with its first
    argument, the update function [PUT path/<id>] with its second
    argument and the delete function [DELETE path/<id>], [<id>] being the
    text of the first argument; in a scope that does not bind [x] they
    build no request, throw the reference error and leave the scope as it
    was. *)
Definition crud_wrappers (x list_path path : string) (es : list export)
    (r : resource) : Prop :=
  exists l c u d,
    group_of es r = [l; c; u; d]
    /\ (forall σ cfg,
          σ !! x = Some (BInstance cfg) ->
          (forall args,
              sends σ cfg GET list_path VUndefined (call (ex_fn l) args σ))
          /\ (forall args,
                sends σ cfg POST path (nth 0 args VUndefined)
                  (call (ex_fn c) args σ))
          /\ (forall args,
                sends σ cfg PUT
                  (path +:+ "/" +:+ to_string (nth 0 args VUndefined))
                  (nth 1 args VUndefined) (call (ex_fn u) args σ))
          /\ (forall args,
                sends σ cfg DELETE
                  (path +:+ "/" +:+ to_string (nth 0 args VUndefined))
                  VUndefined (call (ex_fn d) args σ)))
    /\ (forall σ args,
          σ !! x = None ->
          Forall (fun e => call (ex_fn e) args σ
                           = (Throw (ReferenceError x), σ))
            [l; c; u; d]).

(** The two exports grouped under site settings are wrappers around
    [x.get(path)] and [x.put(path, data)]. *)
Definition settings_wrappers (x path : string) (es : list export) : Prop :=
  exists f u,
    group_of es SiteSettings = [f; u]
    /\ (forall σ cfg,
          σ !! x = Some (BInstance cfg) ->
          (forall args,
              sends σ cfg GET path VUndefined (call (ex_fn f) args σ))
          /\ (forall args,
                sends σ cfg PUT path (nth 0 args VUndefined)
                  (call (ex_fn u) args σ)))
    /\ (forall σ args,
          σ !! x = None ->
          Forall (fun e => call (ex_fn e) args σ
                           = (Throw (ReferenceError x), σ))
            [f; u]).

(** [client[name](...args)] for an importer that holds the exports of a
    file as [client]; a name the file does not export is not a function. *)
Definition call_by_name (es : list export) (name : string)
    (args : list value) : M Request :=
  match find_export es name with
  | Some e => call (ex_fn e) args
  | None => throw (TypeError (name +:+ " is not a function"))
  end.

(** A run of an importer: the calls are made one after the other, each in
    the scope the one before left behind (a call that throws does not end
    the run); the result is the outcome of each call and the final
    scope. *)
Fixpoint run_all (es : list export) (calls : list (string * list value))
    (σ : gmap string binding)
  : list (completion Request) * gmap string binding :=
  match calls with
  | [] => ([], σ)
  | (name, args) :: rest =>
      let (out, σ1) := call_by_name es name args σ in
      let (outs, σ2) := run_all es rest σ1 in
      (out :: outs, σ2)
  end.

(** The exports of a file never change module state and never influence
    one another: whatever calls an importer makes, in whatever order and
    from whatever scope [σ], the scope at the end is [σ], and every call
    of the run has the outcome it would have had as the first call. *)
Definition runs_are_pure (es : list export) : Prop :=
  forall calls σ,
    (run_all es calls σ).2 = σ
    /\ (run_all es calls σ).1
       = map (fun c => (call_by_name es c.1 c.2 σ).1) calls.

(** Two calls of one function that agree on the identifier and on the
    payload (the first two arguments) have the same outcome. *)
Definition equal_arguments_equal_outcome (es : list export) : Prop :=
  forall name args args' σ,
    nth 0 args VUndefined = nth 0 args' VUndefined ->
    nth 1 args VUndefined = nth 1 args' VUndefined ->
    call_by_name es name args σ = call_by_name es name args' σ.

(** The exports of [es] have the same outcome under both ways of calling. *)
Definition same_outcomes
    (invoke1 invoke2
       : arrow -> list value -> completion Request * gmap string binding)
    (es : list export) : Prop :=
  Forall (fun e => forall args,
            (invoke1 (ex_fn e) args).1 = (invoke2 (ex_fn e) args).1) es.

(** A build in which both variables name the same backend. *)
Definition example_env : gmap string string :=
  {[ "REACT_APP_API_URL" := "https://api.example.org";
     "REACT_APP_BACKEND_URL" := "https://api.example.org" ]}.

(** * The admin contract of the backend *)

Module Backend.

(** Modelled from the spec: the backend (authorization middleware, resource
    controllers, persistence adapter) is not among the sources; every
    definition of this module follows sections 3, 4.2, 4.3 and 7 of the
    specification.  The collections behind the resource controllers. *)
Inductive collection : Type := CTeam | CVehicles | CBlogs | CPackages.

Definition collection_name (c : collection) : string :=
  match c with
  | CTeam => "team"
  | CVehicles => "vehicles"
  | CBlogs => "blogs"
  | CPackages => "packages"
  end.

(** The error taxonomy and its HTTP status codes. *)
Inductive api_error : Type :=
| AuthenticationError
| AuthorizationError
| ValidationError
| NotFoundError
| PersistenceError.

Definition status_code (e : api_error) : nat :=
  match e with
  | AuthenticationError => 401
  | AuthorizationError => 403
  | ValidationError => 422
  | NotFoundError => 404
  | PersistenceError => 500
  end%nat.

(** A session token: stateless, valid by signature and expiry alone. *)
Record Token : Type := mkToken {
  subject : string;
  issued_at : nat;
  expiry : nat;
  signature : string
}.

Definition document : Type := list (string * value).

(** The operations of the resource controllers; site settings are a
    singleton that is fetched and updated only. *)
Inductive operation : Type :=
| ListAll (c : collection)
| Create (c : collection) (fields : document)
| Update (c : collection) (id : string) (fields : document)
| Delete (c : collection) (id : string)
| FetchSettings
| UpdateSettings (fields : document).

Definition is_mutating (o : operation) : bool :=
  match o with
  | ListAll _ | FetchSettings => false
  | Create _ _ | Update _ _ _ | Delete _ _ | UpdateSettings _ => true
  end.

(** The document store: documents keyed by collection and identifier, the
    settings singleton, and the counter identifiers are generated from. *)
Record Store : Type := mkStore {
  docs : gmap (string * string) document;
  settings : document;
  next_id : nat
}.

Record AdminRequest : Type := mkAdminRequest {
  bearer : option Token;            (* [None]: no token presented *)
  op : operation
}.

(** The bearer token an HTTP request presents: the decoded content of its
    [Authorization] header, if it has one. *)
Definition bearer_of (decode : string -> option Token) (r : Request)
  : option Token :=
  match List.find is_authorization (req_headers r) with
  | Some h => decode h.2
  | None => None
  end.

Inductive response : Type :=
| Ok (body : value)
| Created (body : value)            (* 201 *)
| Failed (e : api_error).           (* [status_code e] *)

(** Fields of [new] replace fields of [old] with the same name. *)
Definition merge_fields (old new : document) : document :=
  new ++ List.filter
           (fun kv => negb (existsb (fun kv' => String.eqb kv'.1 kv.1) new))
           old.

Definition fresh_id (st : Store) : string :=
  NilZero.string_of_uint (Nat.to_uint (next_id st)).

Definition documents_of (c : collection) (st : Store) : list value :=
  omap (fun kv => if String.eqb kv.1.1 (collection_name c)
                  then Some (VObject (("id", VStr kv.1.2) :: kv.2))
                  else None)
       (map_to_list (docs st)).

Section Contract.
(** The deployment: the signing function of the configured algorithm and
    the configured secret, the role check, the per-resource schema, and
    which read operations are public. *)
Variable sign : string -> string -> nat -> nat -> string.
Variable secret : string.
Variable has_role : string -> bool.
Variable valid : collection -> document -> bool.
Variable public_read : operation -> bool.

(** Modelled from the spec: the token check of the authorization
    middleware, which is not among the sources.  A token is valid at time
    [now] when its signature is the one the configured secret gives its
    content and [now] is not past its expiry. *)
Definition token_valid (now : nat) (t : Token) : bool :=
  String.eqb (signature t)
    (sign secret (subject t) (issued_at t) (expiry t))
  && (now <=? expiry t)%nat.

(** Modelled from the spec: the decoded subject the middleware attaches to
    the request, when the request bears a valid token. *)
Definition authenticate (now : nat) (b : option Token) : option string :=
  match b with
  | Some t => if token_valid now t then Some (subject t) else None
  | None => None
  end.

(** Modelled from the spec: the resource controllers (section 4.3), which
    are not among the sources.  Create validates and stores under a
    generated identifier; update and delete fail on an unknown identifier;
    the settings singleton is only fetched and updated. *)
Definition controller (o : operation) (st : Store) : response * Store :=
  match o with
  | ListAll c => (Ok (VArray (documents_of c st)), st)
  | Create c fields =>
      if valid c fields then
        let id := fresh_id st in
        (Created (VObject (("id", VStr id) :: fields)),
         {| docs := <[(collection_name c, id) := fields]> (docs st);
            settings := settings st;
            next_id := S (next_id st) |})
      else (Failed ValidationError, st)
  | Update c id fields =>
      match docs st !! (collection_name c, id) with
      | None => (Failed NotFoundError, st)
      | Some old =>
          let new := merge_fields old fields in
          (Ok (VObject (("id", VStr id) :: new)),
           {| docs := <[(collection_name c, id) := new]> (docs st);
              settings := settings st;
              next_id := next_id st |})
      end
  | Delete c id =>
      match docs st !! (collection_name c, id) with
      | None => (Failed NotFoundError, st)
      | Some _ =>
          (Ok VNull,
           {| docs := delete (collection_name c, id) (docs st);
              settings := settings st;
              next_id := next_id st |})
      end
  | FetchSettings => (Ok (VObject (settings st)), st)
  | UpdateSettings fields =>
      let new := merge_fields (settings st) fields in
      (Ok (VObject new),
       {| docs := docs st; settings := new; next_id := next_id st |})
  end.

(** Modelled from the spec: the authorization middleware (section 4.2),
    which is not among the sources.  It fails with an authentication error
    on a missing, invalid or expired token before the wrapped controller
    executes, and with an authorization error on an insufficient role. *)
Definition middleware (now : nat) (b : option Token)
    (wrapped : Store -> response * Store) (st : Store) : response * Store :=
  match authenticate now b with
  | None => (Failed AuthenticationError, st)
  | Some who =>
      if has_role who then wrapped st else (Failed AuthorizationError, st)
  end.

(** Modelled from the spec: the routing of admin requests, which is not
    among the sources.  Every mutating operation is behind the middleware;
    a read is behind it unless it is public. *)
Definition handle (now : nat) (req : AdminRequest) (st : Store)
  : response * Store :=
  if is_mutating (op req) || negb (public_read (op req))
  then middleware now (bearer req) (controller (op req)) st
  else controller (op req) st.
End Contract.

(** A deployment to run the contract on: the signature is the secret
    followed by the signed content. *)
Definition toy_sign (key who : string) (iat exp : nat) : string :=
  key +:+ ":" +:+ who +:+ ":" +:+ NilZero.string_of_uint (Nat.to_uint iat)
  +:+ ":" +:+ NilZero.string_of_uint (Nat.to_uint exp).

Definition toy_handle : nat -> AdminRequest -> Store -> response * Store :=
  handle toy_sign "s3cret" (fun who => String.eqb who "admin")
    (fun _ fields => negb (existsb (fun kv => String.eqb kv.1 "id") fields))
    (fun _ => true).

Definition empty_store : Store :=
  {| docs := ∅; settings := []; next_id := 0 |}.

Definition innova : document :=
  [("make", VStr "Toyota"); ("model", VStr "Innova"); ("capacity", VNum 7 eq_refl)].

Definition admin_token : Token :=
  {| subject := "admin"; issued_at := 1000; expiry := 4600;
     signature := toy_sign "s3cret" "admin" 1000 4600 |}.

End Backend.

(** * Facts about URLs *)

Lemma strip_trailing_slash_id (s : string) :
  ends_with_slash s = false -> strip_trailing_slash s = s.
Proof.
  induction s as [|c s IH]; [reflexivity|].
  intros H. cbn [strip_trailing_slash].
  destruct s as [|c' s'].
  - cbn in H. cbn. unfold is_slash in H. rewrite H. reflexivity.
  - assert (Hs : ends_with_slash (String c' s') = false) by exact H.
    rewrite (IH Hs).
    destruct (String.eqb (String c (String c' s')) "/") eqn:E1.
    { apply String.eqb_eq in E1. discriminate. }
    destruct (String.eqb (String c (String c' s')) "//") eqn:E2; [|reflexivity].
    apply String.eqb_eq in E2. injection E2 as -> -> ->. discriminate.
Qed.

Lemma ends_with_slash_app (s : string) (c : ascii) (t : string) :
  ends_with_slash (s +:+ String c t) = ends_with_slash (String c t).
Proof.
  induction s as [|a s IH]; [reflexivity|].
  rewrite <- IH. destruct s; reflexivity.
Qed.

Lemma app_nonempty (s : string) (c : ascii) (t : string) :
  String.eqb (s +:+ String c t) "" = false.
Proof. destruct s; reflexivity. Qed.

Lemma app_assoc_str (a b c : string) : (a +:+ b) +:+ c = a +:+ (b +:+ c).
Proof.
  induction a as [|x a IH]; [reflexivity|].
  change (String x ((a +:+ b) +:+ c) = String x (a +:+ (b +:+ c))).
  f_equal. exact IH.
Qed.

(** A path that starts with exactly one slash is joined to a non-empty
    base by plain concatenation, after the base has lost its final
    slashes. *)
Lemma buildFullPath_rooted (b p : string) :
  String.eqb b "" = false ->
  isAbsoluteURL (String "/" p) = false ->
  strip_leading_slashes p = p ->
  buildFullPath (Some b) (String "/" p) = strip_trailing_slash b +:+ String "/" p.
Proof.
  intros Hb Habs Hp. unfold buildFullPath. rewrite Hb, Habs. cbn [negb andb].
  unfold combineURLs. cbn [String.eqb strip_leading_slashes is_slash].
  cbn. rewrite Hp. reflexivity.
Qed.

(** * Running a wrapper *)

Lemma request_via_bound (σ : gmap string binding) x cfg m url data :
  σ !! x = Some (BInstance cfg) ->
  request_via x m url data σ = (Normal (dispatch cfg m url data), σ).
Proof.
  intros H. unfold request_via, mbind, M_bind, bind, ident.
  rewrite H. reflexivity.
Qed.

Lemma request_via_unbound (σ : gmap string binding) x m url data :
  σ !! x = None ->
  request_via x m url data σ = (Throw (ReferenceError x), σ).
Proof.
  intros H. unfold request_via, mbind, M_bind, bind, ident.
  rewrite H. reflexivity.
Qed.

(** Evaluating [x.<verb>(url, data)] reads the scope and leaves it as it
    was, whatever [x] is bound to. *)
Lemma request_via_scope (σ : gmap string binding) x m url data :
  (request_via x m url data σ).2 = σ.
Proof.
  unfold request_via, mbind, M_bind, bind, ident.
  destruct (σ !! x) as [[v| |cfg|n]|]; reflexivity.
Qed.

(** ** The scopes of the three files *)

Lemma ApiJs_scope_api env :
  ApiJs.scope env !! "api" = Some (BInstance (ApiJs.instance env)).
Proof. vm_compute. reflexivity. Qed.

Lemma ApiJs_scope_API env : ApiJs.scope env !! "API" = None.
Proof. vm_compute. reflexivity. Qed.

Lemma ApiJs_module_loads env :
  (ApiJs.module env ∅).1 = Normal (BInstance (ApiJs.instance env)).
Proof. vm_compute. reflexivity. Qed.

Lemma Part001_scope_API env :
  Part001.scope env !! "API" = Some (BInstance (Part001.instance env)).
Proof.
  unfold Part001.scope, Part001.module, Part001.API, Part001.instance, getenv.
  destruct (env !! "REACT_APP_BACKEND_URL"); vm_compute; reflexivity.
Qed.

Lemma Part001_module_loads env :
  (Part001.module env ∅).1 = Normal (BInstance (Part001.instance env)).
Proof.
  unfold Part001.module, Part001.API, Part001.instance, getenv.
  destruct (env !! "REACT_APP_BACKEND_URL"); vm_compute; reflexivity.
Qed.

Lemma Part002_scope_api env :
  Part002.scope env !! "api" = Some (BInstance (Part002.instance env)).
Proof. vm_compute. reflexivity. Qed.

Lemma Part002_scope_API env : Part002.scope env !! "API" = None.
Proof. vm_compute. reflexivity. Qed.

Lemma Part002_module_throws env :
  (Part002.module env ∅).1 = Throw (ReferenceError "API").
Proof. vm_compute. reflexivity. Qed.

(** ** Running the exports of each file in its own scope *)

Lemma run_unbound (σ : gmap string binding) (x : string)
    (k : binding -> M Request) :
  σ !! x = None -> (ident x ≫= k) σ = (Throw (ReferenceError x), σ).
Proof.
  intros H. unfold mbind, M_bind, bind, ident. rewrite H. reflexivity.
Qed.

Lemma run_bound (σ : gmap string binding) (x : string) (b : binding)
    (k : binding -> M Request) :
  σ !! x = Some b -> (ident x ≫= k) σ = k b σ.
Proof.
  intros H. unfold mbind, M_bind, bind, ident. rewrite H. reflexivity.
Qed.

(** The full URL of a rooted path on the instance of [api.js]. *)
Lemma ApiJs_url env (q p : string) :
  q = String "/" p ->
  isAbsoluteURL q = false ->
  strip_leading_slashes p = p ->
  buildFullPath (baseURL (ApiJs.instance env)) q
  = ApiJs.origin env +:+ "/api" +:+ q.
Proof.
  intros -> Habs Hp. cbn [baseURL ApiJs.instance].
  rewrite buildFullPath_rooted by (try apply app_nonempty; assumption).
  rewrite strip_trailing_slash_id by (rewrite ends_with_slash_app; reflexivity).
  apply app_assoc_str.
Qed.

(** The full URL of a rooted path on the instance of [part_001]. *)
Lemma Part001_url env (q p : string) :
  q = String "/" p ->
  isAbsoluteURL q = false ->
  strip_leading_slashes p = p ->
  buildFullPath (baseURL (Part001.instance env)) q
  = Part001.origin env +:+ q.
Proof.
  intros -> Habs Hp. unfold Part001.origin. cbn [baseURL Part001.instance].
  destruct (env !! "REACT_APP_BACKEND_URL") as [o|]; [|reflexivity].
  cbn [default]. destruct (String.eqb o "") eqn:E.
  - apply String.eqb_eq in E. subst o. reflexivity.
  - apply buildFullPath_rooted; assumption.
Qed.

(** Proves [Forall P l] for an explicit list [l], element by element. *)
Ltac each tac :=
  lazymatch goal with
  | |- Forall _ [] => apply List.Forall_nil
  | |- Forall _ (_ :: _) => apply List.Forall_cons; [tac | each tac]
  end.

(** Evaluates a call of an export of [api.js] that goes through [api]. *)
Ltac run_api_js env :=
  unfold ApiJs.invoke; cbn [call ex_fn arg nth];
  cbv delta [ApiJs.fetchTeam ApiJs.addTeamMember ApiJs.updateTeamMember
    ApiJs.deleteTeamMember ApiJs.fetchSiteSettings ApiJs.updateSiteSettings
    ApiJs.fetchVehicles ApiJs.createVehicle ApiJs.updateVehicle
    ApiJs.deleteVehicle ApiJs.fetchBlogs ApiJs.createBlog ApiJs.updateBlog
    ApiJs.deleteBlog ApiJs.fetchPackages ApiJs.createPackage
    ApiJs.updatePackage ApiJs.deletePackage]; cbn [call ex_fn arg nth];
  first [ rewrite (run_bound _ _ _ _ (ApiJs_scope_api env))
        | rewrite (run_unbound _ _ _ (ApiJs_scope_API env)) ].

Ltac run_part_001 env :=
  unfold Part001.invoke; cbn [call ex_fn arg nth];
  cbv delta [Part001.fetchTeam Part001.addTeamMember Part001.updateTeamMember
    Part001.deleteTeamMember Part001.fetchSiteSettings
    Part001.updateSiteSettings Part001.fetchVehicles Part001.createVehicle
    Part001.updateVehicle Part001.deleteVehicle Part001.fetchBlogs
    Part001.createBlog Part001.updateBlog Part001.deleteBlog];
  cbn [call ex_fn arg nth];
  rewrite (run_bound _ _ _ _ (Part001_scope_API env)).

Ltac run_part_002 env :=
  unfold Part002.invoke; cbn [call ex_fn arg nth];
  cbv delta [Part002.fetchTeam Part002.addTeamMember Part002.updateTeamMember
    Part002.deleteTeamMember Part002.fetchSiteSettings
    Part002.updateSiteSettings Part002.fetchVehicles Part002.createVehicle
    Part002.updateVehicle Part002.deleteVehicle Part002.fetchBlogs
    Part002.createBlog Part002.updateBlog Part002.deleteBlog];
  cbn [call ex_fn arg nth];
  rewrite (run_unbound _ _ _ (Part002_scope_API env)).

(** * The unbound symbol [API] *)

(** Claim C1.  In [api.js] and in [part_002] the axios instance is bound
    to the name [api] and nothing binds [API].  Every call of a package
    export of [api.js] ([fetchPackages], [createPackage], [updatePackage],
    [deletePackage]), with any arguments, throws the ReferenceError for
    [API]; so does every call of every export of [part_002], and so does
    the evaluation of [part_002] itself, at [export default API]. *)
Theorem C1_API_is_unbound (env : gmap string string) :
  ApiJs.scope env !! "api" = Some (BInstance (ApiJs.instance env))
  /\ ApiJs.scope env !! "API" = None
  /\ map ex_name (group_of ApiJs.exports Packages)
     = ["fetchPackages"; "createPackage"; "updatePackage"; "deletePackage"]
  /\ Forall (fun e => forall args,
               (ApiJs.invoke env (ex_fn e) args).1 = Throw (ReferenceError "API"))
       (group_of ApiJs.exports Packages)
  /\ Part002.scope env !! "api" = Some (BInstance (Part002.instance env))
  /\ Part002.scope env !! "API" = None
  /\ Forall (fun e => forall args,
               (Part002.invoke env (ex_fn e) args).1
               = Throw (ReferenceError "API"))
       Part002.exports
  /\ (Part002.module env ∅).1 = Throw (ReferenceError "API").
Proof.
  split; [apply ApiJs_scope_api|].
  split; [apply ApiJs_scope_API|].
  split; [reflexivity|].
  split.
  { change (group_of ApiJs.exports Packages)
      with [ mkExport Packages "fetchPackages" ApiJs.fetchPackages;
             mkExport Packages "createPackage" ApiJs.createPackage;
             mkExport Packages "updatePackage" ApiJs.updatePackage;
             mkExport Packages "deletePackage" ApiJs.deletePackage ].
    each ltac:(intros args; run_api_js env; reflexivity). }
  split; [apply Part002_scope_api|].
  split; [apply Part002_scope_API|].
  split; [|apply Part002_module_throws].
  unfold Part002.exports.
  each ltac:(intros args; run_part_002 env; reflexivity).
Qed.

(** * Routes *)

(** Settles [issues (invoke f args) m url data] for an export that goes
    through the instance of its file. *)
Ltac solve_issues run url_lemma :=
  unfold issues; run;
  eexists; split; [reflexivity|];
  cbn [req_method req_url req_data dispatch];
  split; [reflexivity|]; split; [|reflexivity];
  etrans; [eapply url_lemma; reflexivity | reflexivity].

Ltac solve_routes run url_lemma :=
  each ltac:(eexists _, _, _, _; (split; [reflexivity|]);
             repeat split; intros; solve_issues run url_lemma).

Lemma ApiJs_crud_routes env :
  Forall (crud_routes (ApiJs.invoke env) (ApiJs.origin env) ApiJs.exports)
    [Team; Vehicles; Blogs].
Proof. solve_routes ltac:(run_api_js env) ApiJs_url. Qed.

Lemma ApiJs_settings_routes env :
  settings_routes (ApiJs.invoke env) (ApiJs.origin env) ApiJs.exports.
Proof.
  eexists _, _; (split; [reflexivity|]).
  split; intros; solve_issues ltac:(run_api_js env) ApiJs_url.
Qed.

Lemma Part001_crud_routes env :
  Forall (crud_routes (Part001.invoke env) (Part001.origin env) Part001.exports)
    [Team; Vehicles; Blogs].
Proof. solve_routes ltac:(run_part_001 env) Part001_url. Qed.

Lemma Part001_settings_routes env :
  settings_routes (Part001.invoke env) (Part001.origin env) Part001.exports.
Proof.
  eexists _, _; (split; [reflexivity|]).
  split; intros; solve_issues ltac:(run_part_001 env) Part001_url.
Qed.

(** The list function of the packages section asks for [/packages], not
    for [/admin/packages]: on whatever instance [API] is bound to, its
    request is [GET /packages] relative to that instance's base URL. *)
Lemma fetchPackages_path :
  wraps ApiJs.fetchPackages "API" GET (fun _ => "/packages")
    (fun _ => VUndefined).
Proof. intros args. reflexivity. Qed.

(** Settles [crud_operations] and [package_operations]. *)
Ltac solve_operations run url_lemma :=
  eexists _, _, _, _; (split; [reflexivity|]); (split; [reflexivity|]);
  repeat split; intros args; solve_issues run url_lemma.

(** Evaluates a call of a package export of [api.js] in a scope [σ] in
    which [Hσ] finds [API] bound. *)
Ltac run_package σ Hσ :=
  unfold call_in; cbn [call ex_fn arg nth];
  cbv delta [ApiJs.fetchPackages ApiJs.createPackage ApiJs.updatePackage
             ApiJs.deletePackage];
  cbn [call ex_fn arg nth]; rewrite (run_bound σ "API" _ _ Hσ).

Lemma ApiJs_crud_operations env :
  Forall (crud_operations (ApiJs.invoke env) (ApiJs.origin env) ApiJs.exports)
    [Team; Vehicles; Blogs].
Proof. each ltac:(solve_operations ltac:(run_api_js env) ApiJs_url). Qed.

Lemma Part001_crud_operations env :
  Forall (crud_operations (Part001.invoke env) (Part001.origin env)
            Part001.exports)
    [Team; Vehicles; Blogs].
Proof. each ltac:(solve_operations ltac:(run_part_001 env) Part001_url). Qed.

(** What the package functions do on the instance of their file: in a
    scope in which [API] names the instance [api.js] creates, they are the
    four operations on [<origin>/api/admin/packages], except that the list
    function asks for [<origin>/api/packages]. *)
Lemma ApiJs_package_operations env (σ : gmap string binding) :
  σ !! "API" = Some (BInstance (ApiJs.instance env)) ->
  package_operations (call_in σ) (ApiJs.origin env) ApiJs.exports.
Proof.
  intros Hσ. solve_operations ltac:(run_package σ Hσ) ApiJs_url.
Qed.

Lemma scope_binding_API_lookup env :
  scope_binding_API env !! "API" = Some (BInstance (ApiJs.instance env)).
Proof. apply lookup_insert_eq. Qed.

(** Claim C2, as amended.  For every resource in {team, vehicles, blogs},
    in [api.js] and in [part_001], the list and create functions issue GET
    and POST requests to [<origin>/api/admin/<resource>] and, for every
    identifier [id], the update and delete functions issue PUT and DELETE
    requests to [<origin>/api/admin/<resource>/<id>]; site settings are
    fetched and updated with GET and PUT at
    [<origin>/api/admin/site-settings].  ([<id>] is the text of [id], the
    body of a POST or PUT is the payload passed in.)  For packages, which
    only [api.js] has, the routes are those its four functions request of
    the instance of the file when [API] names it: POST to
    [<origin>/api/admin/packages], PUT and DELETE to
    [<origin>/api/admin/packages/<id>], and GET to [<origin>/api/packages]
    for the list.  [part_001] has no package function. *)
Theorem C2_admin_routes (env : gmap string string) :
  Forall (crud_routes (ApiJs.invoke env) (ApiJs.origin env) ApiJs.exports)
    [Team; Vehicles; Blogs]
  /\ settings_routes (ApiJs.invoke env) (ApiJs.origin env) ApiJs.exports
  /\ Forall (crud_routes (Part001.invoke env) (Part001.origin env)
               Part001.exports)
       [Team; Vehicles; Blogs]
  /\ settings_routes (Part001.invoke env) (Part001.origin env) Part001.exports
  /\ (forall σ,
        σ !! "API" = Some (BInstance (ApiJs.instance env)) ->
        package_operations (call_in σ) (ApiJs.origin env) ApiJs.exports)
  /\ group_of Part001.exports Packages = [].
Proof.
  split; [apply ApiJs_crud_routes|].
  split; [apply ApiJs_settings_routes|].
  split; [apply Part001_crud_routes|].
  split; [apply Part001_settings_routes|].
  split; [apply ApiJs_package_operations | reflexivity].
Qed.

Lemma C2_admin_routes_witness :
  issues
    (call_in (scope_binding_API ∅) ApiJs.updatePackage
       [VStr "p1"; VObject [("price", VNum 900 eq_refl)]])
    PUT "http://localhost:8000/api/admin/packages/p1"
    (VObject [("price", VNum 900 eq_refl)]).
Proof.
  destruct (C2_admin_routes ∅) as (_ & _ & _ & _ & Hp & _).
  destruct (Hp (scope_binding_API ∅) (scope_binding_API_lookup ∅))
    as (l & c & u & d & Hg & _ & _ & _ & Hu & _).
  injection Hg as <- <- <- <-.
  exact (Hu [VStr "p1"; VObject [("price", VNum 900 eq_refl)]]).
Defined.

(** Claim C2 as stated fails for the list of packages, and not through
    the unbound [API]: on the instance of the file, with no environment
    variable set, [fetchPackages()] requests
    [http://localhost:8000/api/packages], so it issues no GET to
    [http://localhost:8000/api/admin/packages]; and [part_001] has no
    list function for packages at all. *)
Lemma C2_packages_list_counterexample :
  issues (call_in (scope_binding_API ∅) ApiJs.fetchPackages [])
    GET "http://localhost:8000/api/packages" VUndefined
  /\ ~ issues (call_in (scope_binding_API ∅) ApiJs.fetchPackages [])
         GET "http://localhost:8000/api/admin/packages" VUndefined
  /\ group_of Part001.exports Packages = [].
Proof.
  assert (H : issues (call_in (scope_binding_API ∅) ApiJs.fetchPackages [])
                GET "http://localhost:8000/api/packages" VUndefined).
  { destruct (ApiJs_package_operations ∅ (scope_binding_API ∅)
                (scope_binding_API_lookup ∅))
      as (l & c & u & d & Hg & _ & Hl & _).
    injection Hg as <- <- <- <-. exact (Hl []). }
  split; [exact H|]. split; [|reflexivity].
  destruct H as (r & Hr & _ & Hu & _).
  intros (r' & Hr' & _ & Hu' & _).
  rewrite Hr in Hr'. injection Hr' as <-.
  rewrite Hu in Hu'. discriminate Hu'.
Qed.

(** * The operations of the exported interface *)

(** Claim C4, as amended.  For each of team, vehicles and blogs, [api.js]
    and [part_001] each expose exactly four operations: a list function
    without parameter that issues a GET, a create function of one
    parameter that issues a POST with it as body, an update function of
    parameters [(id, data)] that issues a PUT for [id] with body [data],
    and a delete function of one parameter that issues a DELETE for it.
    For packages, [api.js] declares four functions with these parameter
    lists, [fetchPackages], [createPackage], [updatePackage] and
    [deletePackage], which are those four operations on the instance of
    the file when [API] names it; [part_001] exposes no operation on
    packages. *)
Theorem C4_four_operations_per_resource (env : gmap string string) :
  Forall (crud_operations (ApiJs.invoke env) (ApiJs.origin env) ApiJs.exports)
    [Team; Vehicles; Blogs]
  /\ Forall (crud_operations (Part001.invoke env) (Part001.origin env)
               Part001.exports)
       [Team; Vehicles; Blogs]
  /\ map (fun e => (ex_name e, arity (ex_fn e)))
         (group_of ApiJs.exports Packages)
     = [ ("fetchPackages", 0); ("createPackage", 1); ("updatePackage", 2);
         ("deletePackage", 1) ]%nat
  /\ (forall σ,
        σ !! "API" = Some (BInstance (ApiJs.instance env)) ->
        package_operations (call_in σ) (ApiJs.origin env) ApiJs.exports)
  /\ group_of Part001.exports Packages = [].
Proof.
  split; [apply ApiJs_crud_operations|].
  split; [apply Part001_crud_operations|].
  split; [reflexivity|].
  split; [apply ApiJs_package_operations | reflexivity].
Qed.

Lemma C4_four_operations_per_resource_witness :
  issues (call_in (scope_binding_API ∅) ApiJs.deletePackage [VStr "p1"])
    DELETE "http://localhost:8000/api/admin/packages/p1" VUndefined.
Proof.
  destruct (C4_four_operations_per_resource ∅) as (_ & _ & _ & Hp & _).
  destruct (Hp (scope_binding_API ∅) (scope_binding_API_lookup ∅))
    as (l & c & u & d & Hg & _ & _ & _ & _ & Hd).
  injection Hg as <- <- <- <-.
  exact (Hd [VStr "p1"]).
Defined.

(** Claim C4 as stated fails for packages: [part_001] exposes no operation
    on packages, let alone four. *)
Lemma C4_part_001_packages_counterexample :
  group_of Part001.exports Packages = []
  /\ ~ exists l c u d, group_of Part001.exports Packages = [l; c; u; d].
Proof.
  split; [reflexivity|]. intros (l & c & u & d & H). discriminate H.
Qed.

(** * Site settings *)

(** Reduces a verb call on an instance to the request it dispatches. *)
Ltac dispatched :=
  unfold request_satisfies, axios_get, axios_post, axios_put, axios_delete,
    instance_of, mbind, M_bind, bind, ret;
  cbn [fst snd req_method req_url req_data req_withCredentials req_headers
       dispatch].

(** A request of the file is no POST or DELETE to the settings URL: it is
    a GET or a PUT, or its URL differs from [origin ++ "/api/admin/site-settings"]
    after the common front part. *)
Ltac solve_get_or_put url_lemma env :=
  unfold get_or_put_at; cbn [req_method req_url dispatch];
  first
    [ right; left; reflexivity
    | right; right; reflexivity
    | left; intros H;
      match type of H with
      | buildFullPath _ ?q = _ =>
          erewrite (url_lemma env q) in H by reflexivity
      end;
      repeat (apply String.app_inj in H);
      vm_compute in H; discriminate H ].

Lemma ApiJs_settings_get_put_only env :
  Forall (fun e => forall args,
            request_satisfies
              (get_or_put_at (ApiJs.origin env +:+ "/api/admin/site-settings"))
              (ApiJs.invoke env (ex_fn e) args))
    ApiJs.exports.
Proof.
  unfold ApiJs.exports.
  each ltac:(intros args; unfold request_satisfies; run_api_js env;
             first [exact I | dispatched; solve_get_or_put ApiJs_url env]).
Qed.

Lemma Part001_settings_get_put_only env :
  Forall (fun e => forall args,
            request_satisfies
              (get_or_put_at (Part001.origin env +:+ "/api/admin/site-settings"))
              (Part001.invoke env (ex_fn e) args))
    Part001.exports.
Proof.
  unfold Part001.exports.
  each ltac:(intros args; unfold request_satisfies; run_part_001 env;
             dispatched; solve_get_or_put Part001_url env).
Qed.

Lemma Part002_no_request env :
  Forall (fun e => forall args P,
            request_satisfies P (Part002.invoke env (ex_fn e) args))
    Part002.exports.
Proof.
  unfold Part002.exports.
  each ltac:(intros args P; unfold request_satisfies; run_part_002 env;
             exact I).
Qed.

Ltac solve_settings_interface :=
  eexists _, _, _, _; (split; [reflexivity|]);
  split; [reflexivity|]; split; [intros args; reflexivity|];
  split; [reflexivity | intros args; reflexivity].

(** Claim C5.  In each of the three variants of the client the exports for
    site settings are exactly a fetch, which wraps a GET, and an update,
    which wraps a PUT with the payload as body.  No export of any variant
    issues a POST or a DELETE to the site-settings URL: whatever the
    function and its arguments, a request to
    [<origin>/api/admin/site-settings] is a GET or a PUT ([part_002] issues
    no request at all). *)
Theorem C5_site_settings_fetch_and_update_only (env : gmap string string) :
  settings_interface ApiJs.exports
  /\ settings_interface Part001.exports
  /\ settings_interface Part002.exports
  /\ settings_routes (ApiJs.invoke env) (ApiJs.origin env) ApiJs.exports
  /\ settings_routes (Part001.invoke env) (Part001.origin env) Part001.exports
  /\ Forall (fun e => forall args,
               request_satisfies
                 (get_or_put_at
                    (ApiJs.origin env +:+ "/api/admin/site-settings"))
                 (ApiJs.invoke env (ex_fn e) args))
       ApiJs.exports
  /\ Forall (fun e => forall args,
               request_satisfies
                 (get_or_put_at
                    (Part001.origin env +:+ "/api/admin/site-settings"))
                 (Part001.invoke env (ex_fn e) args))
       Part001.exports
  /\ Forall (fun e => forall args url,
               request_satisfies (get_or_put_at url)
                 (Part002.invoke env (ex_fn e) args))
       Part002.exports.
Proof.
  split; [solve_settings_interface|].
  split; [solve_settings_interface|].
  split; [solve_settings_interface|].
  split; [apply ApiJs_settings_routes|].
  split; [apply Part001_settings_routes|].
  split; [apply ApiJs_settings_get_put_only|].
  split; [apply Part001_settings_get_put_only|].
  eapply Forall_impl; [apply Part002_no_request|].
  intros e H args url. apply H.
Qed.

(** * Pure request wrappers *)

Lemma call_ext (f : arrow) (args args' : list value) :
  arg 0 args' = arg 0 args -> arg 1 args' = arg 1 args ->
  call f args' = call f args.
Proof. intros H0 H1. destruct f; cbn [call]; rewrite ?H0, ?H1; reflexivity. Qed.

(** Exposes the bodies of the exported arrow functions. *)
Ltac unfold_exports :=
  cbv delta [ApiJs.fetchTeam ApiJs.addTeamMember ApiJs.updateTeamMember
    ApiJs.deleteTeamMember ApiJs.fetchSiteSettings ApiJs.updateSiteSettings
    ApiJs.fetchVehicles ApiJs.createVehicle ApiJs.updateVehicle
    ApiJs.deleteVehicle ApiJs.fetchBlogs ApiJs.createBlog ApiJs.updateBlog
    ApiJs.deleteBlog ApiJs.fetchPackages ApiJs.createPackage
    ApiJs.updatePackage ApiJs.deletePackage
    Part001.fetchTeam Part001.addTeamMember Part001.updateTeamMember
    Part001.deleteTeamMember Part001.fetchSiteSettings
    Part001.updateSiteSettings Part001.fetchVehicles Part001.createVehicle
    Part001.updateVehicle Part001.deleteVehicle Part001.fetchBlogs
    Part001.createBlog Part001.updateBlog Part001.deleteBlog
    Part002.fetchTeam Part002.addTeamMember Part002.updateTeamMember
    Part002.deleteTeamMember Part002.fetchSiteSettings
    Part002.updateSiteSettings Part002.fetchVehicles Part002.createVehicle
    Part002.updateVehicle Part002.deleteVehicle Part002.fetchBlogs
    Part002.createBlog Part002.updateBlog Part002.deleteBlog].

(** Settles [sends σ cfg m path data (call f args σ)] for an export whose
    callee [Hx] finds bound to an instance. *)
Ltac solve_sends σ Hx :=
  unfold sends; cbn [call ex_fn arg nth]; unfold_exports;
  cbn [call ex_fn arg nth]; rewrite (run_bound σ _ _ _ Hx);
  (split; [reflexivity|]); eexists; (split; [reflexivity|]);
  cbn [req_method req_url req_data req_withCredentials req_headers dispatch];
  (split; [reflexivity|]); (split; [reflexivity|]);
  (split; [reflexivity|]); split; reflexivity.

(** Settles the case of a scope without a binding for the callee. *)
Ltac solve_unbound :=
  intros σ args Hn;
  each ltac:(cbn [call ex_fn]; unfold_exports; cbn [call];
             exact (run_unbound σ _ _ Hn)).

Ltac solve_crud_wrappers :=
  eexists _, _, _, _; (split; [reflexivity|]);
  split;
  [ intros σ cfg Hx;
    (split; [|split; [|split]]); intros args; solve_sends σ Hx
  | solve_unbound ].

Ltac solve_settings_wrappers :=
  eexists _, _; (split; [reflexivity|]);
  split;
  [ intros σ cfg Hx; split; intros args; solve_sends σ Hx
  | solve_unbound ].

Lemma ApiJs_wrappers :
  Forall (fun r => crud_wrappers "api" ("/admin/" +:+ slug r)
                     ("/admin/" +:+ slug r) ApiJs.exports r)
    [Team; Vehicles; Blogs]
  /\ crud_wrappers "API" "/packages" "/admin/packages" ApiJs.exports Packages
  /\ settings_wrappers "api" "/admin/site-settings" ApiJs.exports.
Proof.
  split; [each ltac:(solve_crud_wrappers)|].
  split; [solve_crud_wrappers | solve_settings_wrappers].
Qed.

Lemma Part001_wrappers :
  Forall (fun r => crud_wrappers "API" ("/api/admin/" +:+ slug r)
                     ("/api/admin/" +:+ slug r) Part001.exports r)
    [Team; Vehicles; Blogs]
  /\ settings_wrappers "API" "/api/admin/site-settings" Part001.exports.
Proof.
  split; [each ltac:(solve_crud_wrappers) | solve_settings_wrappers].
Qed.

Lemma Part002_wrappers :
  Forall (fun r => crud_wrappers "API" ("/api/admin/" +:+ slug r)
                     ("/api/admin/" +:+ slug r) Part002.exports r)
    [Team; Vehicles; Blogs]
  /\ settings_wrappers "API" "/api/admin/site-settings" Part002.exports.
Proof.
  split; [each ltac:(solve_crud_wrappers) | solve_settings_wrappers].
Qed.

(** No export changes the scope it is called in, whatever that scope
    binds its callee to (an instance, something else, or nothing). *)
Lemma exports_keep_scope :
  Forall (fun e => forall σ args, (call (ex_fn e) args σ).2 = σ)
    (ApiJs.exports ++ Part001.exports ++ Part002.exports).
Proof.
  unfold ApiJs.exports, Part001.exports, Part002.exports. cbn [app].
  each ltac:(cbn [ex_fn]; intros σ args;
             exact (request_via_scope σ _ _ _ _)).
Qed.

Lemma call_by_name_scope (es : list export) :
  Forall (fun e => forall σ args, (call (ex_fn e) args σ).2 = σ) es ->
  forall name args σ, (call_by_name es name args σ).2 = σ.
Proof.
  intros Hes name args σ. unfold call_by_name, find_export.
  induction Hes as [|e es He _ IH]; [reflexivity|].
  cbn [List.find]. destruct (String.eqb (ex_name e) name); [apply He | exact IH].
Qed.

Lemma runs_are_pure_of (es : list export) :
  (forall name args σ, (call_by_name es name args σ).2 = σ) ->
  runs_are_pure es.
Proof.
  intros Hes calls. induction calls as [|[name args] calls IH]; intros σ.
  - split; reflexivity.
  - cbn [run_all map fst snd].
    pose proof (Hes name args σ) as Hσ.
    destruct (call_by_name es name args σ) as [out σ1]. cbn [snd fst] in *.
    subst σ1. destruct (IH σ) as [H2 H1].
    destruct (run_all es calls σ) as [outs σ2]. cbn [fst snd] in *.
    split; [exact H2 | rewrite H1; reflexivity].
Qed.

Lemma equal_arguments_of (es : list export) :
  equal_arguments_equal_outcome es.
Proof.
  intros name args args' σ H0 H1. unfold call_by_name.
  destruct (find_export es name) as [e|]; [|reflexivity].
  rewrite (call_ext (ex_fn e) args' args); [reflexivity | |];
    unfold arg; assumption.
Qed.

(** Claim C6.  Every export of every variant of the client is a pure
    request wrapper.  It is a request wrapper: in every scope that binds
    its callee to an axios instance, whatever the current defaults of the
    instance, a call builds exactly the request of one verb method, with
    the method, the URL and the body its arguments determine and the
    credentials flag and headers of the instance, and does nothing else;
    in a scope without a binding for its callee it builds no request and
    throws.  It is pure: whatever calls of exports an importer makes, in
    whatever order and from whatever module state, the state at the end
    (the bindings and the defaults of the instance held in them) is the
    state at the start, every call has the outcome it would have had as
    the first call, and two calls of the same function that agree on the
    identifier and the payload have the same outcome: the same request,
    method, URL and body. *)
Theorem C6_exports_are_pure_wrappers :
  (Forall (fun r => crud_wrappers "api" ("/admin/" +:+ slug r)
                      ("/admin/" +:+ slug r) ApiJs.exports r)
     [Team; Vehicles; Blogs]
   /\ crud_wrappers "API" "/packages" "/admin/packages" ApiJs.exports Packages
   /\ settings_wrappers "api" "/admin/site-settings" ApiJs.exports)
  /\ Forall (fun es =>
               Forall (fun r => crud_wrappers "API" ("/api/admin/" +:+ slug r)
                                  ("/api/admin/" +:+ slug r) es r)
                 [Team; Vehicles; Blogs]
               /\ settings_wrappers "API" "/api/admin/site-settings" es)
       [Part001.exports; Part002.exports]
  /\ Forall runs_are_pure [ApiJs.exports; Part001.exports; Part002.exports]
  /\ Forall equal_arguments_equal_outcome
       [ApiJs.exports; Part001.exports; Part002.exports].
Proof.
  split; [exact ApiJs_wrappers|].
  split.
  { apply List.Forall_cons; [exact Part001_wrappers|].
    apply List.Forall_cons; [exact Part002_wrappers | apply List.Forall_nil]. }
  pose proof exports_keep_scope as H.
  apply Forall_app in H as [Ha H]. apply Forall_app in H as [H1 H2].
  split.
  - each ltac:(apply runs_are_pure_of, call_by_name_scope; assumption).
  - each ltac:(apply equal_arguments_of).
Qed.

(** The requests depend on the state the calls leave alone: on an
    instance with other defaults the same call builds another request. *)
Example request_follows_the_defaults :
  let other := {| baseURL := Some "https://staging.example.org/api";
                  withCredentials := Some true;
                  headers := [("Authorization", "Bearer t")] |} in
  (call_in (<["api" := BInstance other]> (ApiJs.scope ∅))
     ApiJs.deleteBlog [VStr "b1"]).1
  = Normal {| req_method := DELETE;
              req_url := "https://staging.example.org/api/admin/blogs/b1";
              req_data := VUndefined;
              req_withCredentials := true;
              req_headers := [("Authorization", "Bearer t")] |}
  /\ url_of (ApiJs.invoke ∅ ApiJs.deleteBlog [VStr "b1"])
     = Some "http://localhost:8000/api/admin/blogs/b1".
Proof. split; reflexivity. Qed.

(** * The base URL *)

Lemma ApiJs_origin_unset env :
  env !! "REACT_APP_API_URL" = None ->
  ApiJs.origin env = "http://localhost:8000".
Proof.
  intros H. unfold ApiJs.origin, ApiJs.API_URL, getenv. rewrite H.
  reflexivity.
Qed.

(** An empty variable is falsy, so [||] falls back as well. *)
Lemma ApiJs_origin_empty env :
  env !! "REACT_APP_API_URL" = Some "" ->
  ApiJs.origin env = "http://localhost:8000".
Proof.
  intros H. unfold ApiJs.origin, ApiJs.API_URL, getenv. rewrite H.
  reflexivity.
Qed.

Lemma ApiJs_origin_set env (o : string) :
  env !! "REACT_APP_API_URL" = Some o -> String.eqb o "" = false ->
  ApiJs.origin env = o.
Proof.
  intros H Ho. unfold ApiJs.origin, ApiJs.API_URL, getenv, js_or. rewrite H.
  cbn [truthy]. rewrite Ho. reflexivity.
Qed.

Lemma Part001_origin_set env (o : string) :
  env !! "REACT_APP_BACKEND_URL" = Some o -> ends_with_slash o = false ->
  Part001.origin env = o.
Proof.
  intros H Ho. unfold Part001.origin. rewrite H. cbn [default].
  apply strip_trailing_slash_id, Ho.
Qed.

Lemma is_origin_inv (o : string) :
  is_origin o = true -> String.eqb o "" = false /\ ends_with_slash o = false.
Proof.
  unfold is_origin. intros H. apply andb_prop in H as [H1 H2].
  split; apply negb_true_iff; assumption.
Qed.

(** Evaluates a call through the instance of [api.js] down to the request
    it dispatches. *)
Ltac api_js_request env :=
  run_api_js env; dispatched.

(** Claim C9.  When [REACT_APP_API_URL] is unset, [API_URL] is
    [http://localhost:8000], the base URL of the instance [api] is
    [http://localhost:8000/api], every call of an export that goes through
    [api] issues a request whose URL begins with
    [http://localhost:8000/api], and no export issues a request with any
    other URL. *)
Theorem C9_localhost_fallback (env : gmap string string) :
  env !! "REACT_APP_API_URL" = None ->
  ApiJs.API_URL env = VStr "http://localhost:8000"
  /\ ApiJs.scope env !! "api" = Some (BInstance (ApiJs.instance env))
  /\ baseURL (ApiJs.instance env) = Some "http://localhost:8000/api"
  /\ every_call_issues (ApiJs.invoke env)
       (fun r => String.prefix "http://localhost:8000/api" (req_url r) = true)
       (without Packages ApiJs.exports)
  /\ every_request (ApiJs.invoke env)
       (fun r => String.prefix "http://localhost:8000/api" (req_url r) = true)
       ApiJs.exports.
Proof.
  intros Henv. pose proof (ApiJs_origin_unset env Henv) as Ho.
  split. { unfold ApiJs.API_URL, getenv. rewrite Henv. reflexivity. }
  split; [apply ApiJs_scope_api|].
  split. { cbn [baseURL ApiJs.instance]. rewrite Ho. reflexivity. }
  split.
  - unfold every_call_issues.
    change (without Packages ApiJs.exports)
      with (firstn 14 ApiJs.exports).
    unfold ApiJs.exports. cbn [firstn].
    each ltac:(intros args; api_js_request env;
               eexists; split; [reflexivity|];
               cbn [req_url dispatch];
               match goal with
               | |- context [buildFullPath _ ?q] =>
                   erewrite (ApiJs_url env q) by reflexivity
               end;
               rewrite Ho; reflexivity).
  - unfold every_request, ApiJs.exports.
    each ltac:(intros args; unfold request_satisfies; run_api_js env;
               first
                 [ exact I
                 | dispatched;
                   match goal with
                   | |- context [buildFullPath _ ?q] =>
                       erewrite (ApiJs_url env q) by reflexivity
                   end;
                   rewrite Ho; reflexivity ]).
Qed.

Lemma C9_localhost_fallback_witness :
  (∅ : gmap string string) !! "REACT_APP_API_URL" = None
  /\ ApiJs.API_URL ∅ = VStr "http://localhost:8000"
  /\ baseURL (ApiJs.instance ∅) = Some "http://localhost:8000/api".
Proof.
  assert (H : (∅ : gmap string string) !! "REACT_APP_API_URL" = None)
    by reflexivity.
  split; [exact H|].
  destruct (C9_localhost_fallback ∅ H) as (H1 & _ & H3 & _).
  split; [exact H1 | exact H3].
Defined.

(** * The two working variants side by side *)

(** Looking an export up by name in [part_001]. *)
Ltac lookup_part_001 :=
  cbn [find_export List.find ex_name String.eqb Ascii.eqb Bool.eqb
       Part001.exports andb].

(** Claim C7.  Let [REACT_APP_API_URL] (read by [api.js]) and
    [REACT_APP_BACKEND_URL] (read by [part_001]) be set to the same backend
    origin.  Then every export of [api.js] that [part_001] exports under
    the same name issues, for the same arguments, the same request as its
    namesake: same method, same full URL (and same body, credentials flag
    and headers).  The exports of [api.js] without a namesake are those of
    the packages section. *)
Theorem C7_variants_request_equivalent
    (env_a env_b : gmap string string) (o : string) :
  env_a !! "REACT_APP_API_URL" = Some o ->
  env_b !! "REACT_APP_BACKEND_URL" = Some o ->
  is_origin o = true ->
  Forall (fun ea =>
            match find_export Part001.exports (ex_name ea) with
            | Some eb =>
                forall args, exists r,
                  (ApiJs.invoke env_a (ex_fn ea) args).1 = Normal r
                  /\ (Part001.invoke env_b (ex_fn eb) args).1 = Normal r
            | None => ex_group ea = Packages
            end)
    ApiJs.exports.
Proof.
  intros Ha Hb Ho. apply is_origin_inv in Ho as [Hne Hns].
  pose proof (ApiJs_origin_set env_a o Ha Hne) as Hoa.
  pose proof (Part001_origin_set env_b o Hb Hns) as Hob.
  unfold ApiJs.exports.
  each ltac:(lookup_part_001;
             first
               [ reflexivity
               | intros args; run_api_js env_a; run_part_001 env_b;
                 dispatched; eexists; split; [reflexivity|];
                 unfold dispatch; cbn [baseURL withCredentials headers
                   ApiJs.instance Part001.instance default];
                 do 2 f_equal;
                 symmetry;
                 (etrans; [eapply (ApiJs_url env_a); reflexivity|]);
                 symmetry;
                 (etrans; [eapply (Part001_url env_b); reflexivity|]);
                 rewrite Hoa, Hob; reflexivity ]).
Qed.

Lemma C7_variants_request_equivalent_witness :
  is_origin "https://api.example.org" = true
  /\ (ApiJs.invoke example_env ApiJs.updateVehicle [VStr "v1"; VNull]).1
     = (Part001.invoke example_env Part001.updateVehicle [VStr "v1"; VNull]).1.
Proof.
  split; [reflexivity|].
  assert (Ha : example_env !! "REACT_APP_API_URL" = Some "https://api.example.org")
    by reflexivity.
  assert (Hb : example_env !! "REACT_APP_BACKEND_URL"
               = Some "https://api.example.org") by reflexivity.
  pose proof (C7_variants_request_equivalent example_env example_env
                "https://api.example.org" Ha Hb eq_refl) as H.
  pose proof (Forall_lookup_1 _ _ 8%nat _ H eq_refl) as H8.
  destruct (H8 [VStr "v1"; VNull]) as (r & H1 & H2).
  cbn [ex_fn] in H1. rewrite H1. exact (eq_sym H2).
Defined.

(** With a slash at the end of the common value the two variants part:
    [api.js] keeps it in front of [/api], axios drops it for [part_001]. *)
Example base_with_final_slash :
  let env : gmap string string :=
    {[ "REACT_APP_API_URL" := "https://api.example.org/";
       "REACT_APP_BACKEND_URL" := "https://api.example.org/" ]} in
  url_of (ApiJs.invoke env ApiJs.fetchTeam [])
  = Some "https://api.example.org//api/admin/team"
  /\ url_of (Part001.invoke env Part001.fetchTeam [])
     = Some "https://api.example.org/api/admin/team".
Proof. split; reflexivity. Qed.

(** * Credentials *)

Lemma requests_carry_no_credential (env : gmap string string) :
  every_call_issues (ApiJs.invoke env)
    (fun r => unauthenticated r = true) (without Packages ApiJs.exports)
  /\ every_request (ApiJs.invoke env)
       (fun r => unauthenticated r = true) ApiJs.exports
  /\ every_call_issues (Part001.invoke env)
       (fun r => unauthenticated r = true) Part001.exports.
Proof.
  split; [|split].
  - unfold every_call_issues.
    change (without Packages ApiJs.exports) with (firstn 14 ApiJs.exports).
    unfold ApiJs.exports. cbn [firstn].
    each ltac:(intros args; api_js_request env;
               eexists; split; reflexivity).
  - unfold every_request, ApiJs.exports.
    each ltac:(intros args; unfold request_satisfies; run_api_js env;
               first [exact I | dispatched; reflexivity]).
  - unfold every_call_issues, Part001.exports.
    each ltac:(intros args; run_part_001 env; dispatched;
               eexists; split; reflexivity).
Qed.

(** Claim C8.  The instance of [api.js] is created with [withCredentials]
    set to [false].  Every call of an export that goes through it issues a
    request that carries no credential, the POST, PUT and DELETE requests
    to admin routes included: [withCredentials] is off and there is no
    [Authorization] header, its URL is the route and its body the payload
    passed in, with no token added to either.  The package exports issue no
    request.  Requests of [part_001], where [withCredentials] is left at
    its default, carry no credential either. *)
Theorem C8_requests_are_unauthenticated (env : gmap string string) :
  withCredentials (ApiJs.instance env) = Some false
  /\ ApiJs.scope env !! "api" = Some (BInstance (ApiJs.instance env))
  /\ every_call_issues (ApiJs.invoke env)
       (fun r => unauthenticated r = true) (without Packages ApiJs.exports)
  /\ every_request (ApiJs.invoke env)
       (fun r => unauthenticated r = true) ApiJs.exports
  /\ Forall (crud_routes (ApiJs.invoke env) (ApiJs.origin env) ApiJs.exports)
       [Team; Vehicles; Blogs]
  /\ settings_routes (ApiJs.invoke env) (ApiJs.origin env) ApiJs.exports
  /\ every_call_issues (Part001.invoke env)
       (fun r => unauthenticated r = true) Part001.exports.
Proof.
  destruct (requests_carry_no_credential env) as (H1 & H2 & H3).
  split; [reflexivity|].
  split; [apply ApiJs_scope_api|].
  split; [exact H1|]. split; [exact H2|].
  split; [apply ApiJs_crud_routes|].
  split; [apply ApiJs_settings_routes | exact H3].
Qed.

(** * Mutations behind the token check *)

Section BackendFacts.
Import Backend.
Variable sign : string -> string -> nat -> nat -> string.
Variable secret : string.
Variable has_role : string -> bool.
Variable valid : collection -> document -> bool.
Variable public_read : operation -> bool.

Local Abbreviation authenticate := (Backend.authenticate sign secret).
Local Abbreviation handle :=
  (Backend.handle sign secret has_role valid public_read).

Lemma authenticate_Some (now : nat) (b : option Token) (who : string) :
  authenticate now b = Some who ->
  exists t, b = Some t
    /\ signature t = sign secret (subject t) (issued_at t) (expiry t)
    /\ (now <= expiry t)%nat.
Proof.
  unfold Backend.authenticate, token_valid. destruct b as [t|]; [|discriminate].
  destruct (String.eqb _ _) eqn:Hsig; [|discriminate]. cbn [andb].
  destruct (now <=? expiry t)%nat eqn:Hexp; [|discriminate].
  intros _. exists t. split; [reflexivity|].
  split; [apply String.eqb_eq, Hsig | apply Nat.leb_le, Hexp].
Qed.

Lemma read_keeps_store (o : operation) (st : Store) :
  is_mutating o = false ->
  (controller valid o st).2 = st.
Proof. destruct o; cbn; intros H; try discriminate H; reflexivity. Qed.

(** Claim C3.  A mutating admin operation (create, update or delete on any
    resource, update of the settings) whose request bears no token, or a
    token whose signature is not the one the configured secret gives it,
    or an expired one, is answered with an authentication error and leaves
    the store as it was; and whenever handling a request changes the
    store, the request bore a token that is correctly signed with the
    configured secret and not expired. *)
Theorem C3_mutation_requires_valid_token
    (now : nat) (req : AdminRequest) (st : Store) :
  (is_mutating (op req) = true ->
   authenticate now (bearer req) = None ->
   handle now req st = (Failed AuthenticationError, st))
  /\ ((handle now req st).2 <> st ->
      exists t, bearer req = Some t
        /\ signature t = sign secret (subject t) (issued_at t) (expiry t)
        /\ (now <= expiry t)%nat).
Proof.
  split.
  - intros Hmut Hauth. unfold Backend.handle, middleware.
    rewrite Hmut, Hauth. reflexivity.
  - unfold Backend.handle, middleware. intros Hchanged.
    destruct (authenticate now (bearer req)) as [who|] eqn:Hauth.
    + exact (authenticate_Some now (bearer req) who Hauth).
    + exfalso. apply Hchanged.
      destruct (is_mutating (op req)) eqn:Hmut; cbn [orb].
      * reflexivity.
      * destruct (public_read (op req)); cbn [negb];
          [apply read_keeps_store, Hmut | reflexivity].
Qed.

Lemma unauthenticated_no_bearer (decode : string -> option Token)
    (r : Request) :
  unauthenticated r = true -> bearer_of decode r = None.
Proof.
  unfold unauthenticated, bearer_of. intros H.
  apply andb_prop in H as [_ H]. apply negb_true_iff in H.
  induction (req_headers r) as [|h hs IH]; [reflexivity|].
  cbn [existsb List.find] in *. apply orb_false_elim in H as [Hh Hhs].
  rewrite Hh. apply IH, Hhs.
Qed.

(** What the contract makes of the client: a mutating operation that
    arrives with a request of [api.js] is refused, since such a request
    presents no token. *)
Corollary client_mutations_refused (env : gmap string string)
    (decode : string -> option Token) (now : nat) (o : operation)
    (st : Store) :
  is_mutating o = true ->
  every_call_issues (ApiJs.invoke env)
    (fun r =>
       handle now {| bearer := bearer_of decode r; op := o |} st
       = (Failed AuthenticationError, st))
    (without Packages ApiJs.exports).
Proof.
  intros Hmut.
  destruct (requests_carry_no_credential env) as [H _].
  eapply Forall_impl; [exact H|].
  intros e He args. destruct (He args) as (r & Hr & Hu).
  exists r. split; [exact Hr|].
  unfold Backend.handle, middleware. cbn [op bearer].
  rewrite Hmut, (unauthenticated_no_bearer decode r Hu). reflexivity.
Qed.
End BackendFacts.

Lemma C3_mutation_requires_valid_token_witness :
  Backend.toy_handle 2000
    {| Backend.bearer := None;
       Backend.op := Backend.Create Backend.CVehicles Backend.innova |}
    Backend.empty_store
  = (Backend.Failed Backend.AuthenticationError, Backend.empty_store).
Proof.
  apply C3_mutation_requires_valid_token; reflexivity.
Defined.

(** The same request with a valid token creates the vehicle. *)
Example create_with_valid_token :
  let out :=
    Backend.toy_handle 2000
      {| Backend.bearer := Some Backend.admin_token;
         Backend.op := Backend.Create Backend.CVehicles Backend.innova |}
      Backend.empty_store in
  out.1 = Backend.Created (VObject (("id", VStr "0") :: Backend.innova))
  /\ Backend.docs out.2 !! ("vehicles", "0") = Some Backend.innova.
Proof. split; vm_compute; reflexivity. Qed.

(** Past its expiry the same token is refused. *)
Example create_with_expired_token :
  Backend.toy_handle 4601
    {| Backend.bearer := Some Backend.admin_token;
       Backend.op := Backend.Create Backend.CVehicles Backend.innova |}
    Backend.empty_store
  = (Backend.Failed Backend.AuthenticationError, Backend.empty_store).
Proof. reflexivity. Qed.

(** * Further properties of the client *)

Lemma prefix_app_head (s a b : string) :
  String.prefix (s +:+ a) (s +:+ b) = String.prefix a b.
Proof.
  induction s as [|c s IH]; [reflexivity|].
  change (String.prefix (String c (s +:+ a)) (String c (s +:+ b))
          = String.prefix a b).
  simpl. destruct (ascii_dec c c); [exact IH | congruence].
Qed.

Lemma strip_trailing_slash_one (o : string) :
  ends_with_slash o = false -> strip_trailing_slash (o +:+ "/") = o.
Proof.
  induction o as [|c o IH]; [reflexivity|].
  intros H.
  change (String c o +:+ "/") with (String c (o +:+ "/")).
  cbn [strip_trailing_slash].
  destruct o as [|c' o'].
  - cbn in H. unfold is_slash in H.
    change ("" +:+ "/") with "/".
    destruct (String.eqb (String c "/") "/") eqn:E1.
    { apply String.eqb_eq in E1. discriminate. }
    destruct (String.eqb (String c "/") "//") eqn:E2.
    { apply String.eqb_eq in E2. injection E2 as ->. discriminate. }
    reflexivity.
  - assert (Hs : ends_with_slash (String c' o') = false) by exact H.
    rewrite (IH Hs).
    change (String c' o' +:+ "/") with (String c' (o' +:+ "/")).
    destruct (String.eqb (String c (String c' (o' +:+ "/"))) "/") eqn:E1.
    { apply String.eqb_eq in E1. discriminate. }
    destruct (String.eqb (String c (String c' (o' +:+ "/"))) "//") eqn:E2;
      [|reflexivity].
    apply String.eqb_eq in E2. injection E2 as _ _ E2.
    destruct o'; discriminate.
Qed.

Lemma strip_trailing_slash_two (o : string) :
  ends_with_slash o = false -> strip_trailing_slash (o +:+ "//") = o.
Proof.
  induction o as [|c o IH]; [reflexivity|].
  intros H.
  change (String c o +:+ "//") with (String c (o +:+ "//")).
  cbn [strip_trailing_slash].
  destruct o as [|c' o'].
  - change ("" +:+ "//") with "//".
    destruct (String.eqb (String c "//") "/") eqn:E1.
    { apply String.eqb_eq in E1. discriminate. }
    destruct (String.eqb (String c "//") "//") eqn:E2.
    { apply String.eqb_eq in E2. discriminate. }
    reflexivity.
  - assert (Hs : ends_with_slash (String c' o') = false) by exact H.
    rewrite (IH Hs).
    change (String c' o' +:+ "//") with (String c' (o' +:+ "//")).
    destruct (String.eqb (String c (String c' (o' +:+ "//"))) "/") eqn:E1.
    { apply String.eqb_eq in E1. discriminate. }
    destruct (String.eqb (String c (String c' (o' +:+ "//"))) "//") eqn:E2;
      [|reflexivity].
    apply String.eqb_eq in E2. injection E2 as _ _ E2.
    destruct o'; discriminate.
Qed.

(** ** Evaluating calls *)

(** Evaluates every call of an export of [api.js] or [part_001] in the
    goal, in the scope of its file, down to the request it dispatches. *)
Ltac run_calls :=
  unfold ApiJs.invoke, Part001.invoke;
  cbn [call ex_fn arg nth];
  cbv delta [ApiJs.fetchTeam ApiJs.addTeamMember ApiJs.updateTeamMember
    ApiJs.deleteTeamMember ApiJs.fetchSiteSettings ApiJs.updateSiteSettings
    ApiJs.fetchVehicles ApiJs.createVehicle ApiJs.updateVehicle
    ApiJs.deleteVehicle ApiJs.fetchBlogs ApiJs.createBlog ApiJs.updateBlog
    ApiJs.deleteBlog ApiJs.fetchPackages ApiJs.createPackage
    ApiJs.updatePackage ApiJs.deletePackage
    Part001.fetchTeam Part001.addTeamMember Part001.updateTeamMember
    Part001.deleteTeamMember Part001.fetchSiteSettings
    Part001.updateSiteSettings Part001.fetchVehicles Part001.createVehicle
    Part001.updateVehicle Part001.deleteVehicle Part001.fetchBlogs
    Part001.createBlog Part001.updateBlog Part001.deleteBlog];
  cbn [call ex_fn arg nth];
  repeat match goal with
         | |- context [(ident "api" ≫= ?k) (ApiJs.scope ?e)] =>
             rewrite (run_bound (ApiJs.scope e) "api" _ k (ApiJs_scope_api e))
         | |- context [(ident "API" ≫= ?k) (ApiJs.scope ?e)] =>
             rewrite (run_unbound (ApiJs.scope e) "API" k (ApiJs_scope_API e))
         | |- context [(ident "API" ≫= ?k) (Part001.scope ?e)] =>
             rewrite (run_bound (Part001.scope e) "API" _ k
                        (Part001_scope_API e))
         end;
  dispatched.

(** The identifier enters the URL as text only: the number [1] and the
    string ["1"] address the same member. *)
Example number_and_string_ids_coincide (env : gmap string string) :
  (ApiJs.invoke env ApiJs.deleteTeamMember [VNum 1 eq_refl]).1
  = (ApiJs.invoke env ApiJs.deleteTeamMember [VStr "1"]).1.
Proof. run_calls. reflexivity. Qed.

(** ** What the requests depend on *)

(** The outcomes of [api.js] depend on the environment through [origin]
    alone. *)
Lemma ApiJs_same_outcomes (env1 env2 : gmap string string) :
  ApiJs.origin env1 = ApiJs.origin env2 ->
  same_outcomes (ApiJs.invoke env1) (ApiJs.invoke env2) ApiJs.exports.
Proof.
  intros Ho.
  assert (Hi : ApiJs.instance env1 = ApiJs.instance env2)
    by (unfold ApiJs.instance; rewrite Ho; reflexivity).
  unfold same_outcomes, ApiJs.exports.
  each ltac:(intros args; run_calls; rewrite ?Hi; reflexivity).
Qed.

(** The requests of [part_001] depend on the environment through [origin]
    alone. *)
Lemma Part001_same_outcomes (env1 env2 : gmap string string) :
  Part001.origin env1 = Part001.origin env2 ->
  same_outcomes (Part001.invoke env1) (Part001.invoke env2) Part001.exports.
Proof.
  intros Ho. unfold same_outcomes, Part001.exports.
  each ltac:(intros args; run_calls; unfold dispatch;
             cbn [baseURL withCredentials headers Part001.instance default];
             do 2 f_equal;
             (etrans; [eapply (Part001_url env1); reflexivity|]);
             symmetry;
             (etrans; [eapply (Part001_url env2); reflexivity|]);
             rewrite Ho; reflexivity).
Qed.

(** Property X3.  Each variant reads one variable.  Two environments that agree on
    [REACT_APP_API_URL] give every export of [api.js] the same outcome for
    the same arguments; two that agree on [REACT_APP_BACKEND_URL] do so for
    [part_001]. *)
Theorem one_variable_each (env1 env2 : gmap string string) :
  (env1 !! "REACT_APP_API_URL" = env2 !! "REACT_APP_API_URL" ->
   same_outcomes (ApiJs.invoke env1) (ApiJs.invoke env2) ApiJs.exports)
  /\ (env1 !! "REACT_APP_BACKEND_URL" = env2 !! "REACT_APP_BACKEND_URL" ->
      same_outcomes (Part001.invoke env1) (Part001.invoke env2)
        Part001.exports).
Proof.
  split; intros H.
  - apply ApiJs_same_outcomes.
    unfold ApiJs.origin, ApiJs.API_URL, getenv. rewrite H. reflexivity.
  - apply Part001_same_outcomes. unfold Part001.origin. rewrite H.
    reflexivity.
Qed.

Lemma one_variable_each_witness :
  (ApiJs.invoke example_env ApiJs.fetchBlogs []).1
  = (ApiJs.invoke (<["NODE_ENV" := "production"]> example_env)
       ApiJs.fetchBlogs []).1.
Proof.
  assert (Hagree : example_env !! "REACT_APP_API_URL"
                   = (<["NODE_ENV" := "production"]> example_env)
                       !! "REACT_APP_API_URL") by reflexivity.
  pose proof (proj1 (one_variable_each example_env
                       (<["NODE_ENV" := "production"]> example_env))
                Hagree) as H.
  exact (Forall_lookup_1 _ _ 10%nat _ H eq_refl []).
Defined.

(** Property X4.  An empty variable counts as an unset one.  With [REACT_APP_API_URL]
    set to the empty string, every export of [api.js] has the outcome it
    has without the variable (the fallback of [||]); with
    [REACT_APP_BACKEND_URL] set to the empty string, every export of
    [part_001] has the outcome it has without the variable (axios ignores
    an empty base URL). *)
Theorem empty_variable_is_unset (env : gmap string string) :
  (env !! "REACT_APP_API_URL" = Some "" ->
   same_outcomes (ApiJs.invoke env)
     (ApiJs.invoke (delete "REACT_APP_API_URL" env)) ApiJs.exports)
  /\ (env !! "REACT_APP_BACKEND_URL" = Some "" ->
      same_outcomes (Part001.invoke env)
        (Part001.invoke (delete "REACT_APP_BACKEND_URL" env))
        Part001.exports).
Proof.
  split; intros H.
  - apply ApiJs_same_outcomes.
    unfold ApiJs.origin, ApiJs.API_URL, getenv.
    rewrite H, lookup_delete_eq. reflexivity.
  - apply Part001_same_outcomes. unfold Part001.origin.
    rewrite H, lookup_delete_eq. reflexivity.
Qed.

Lemma empty_variable_is_unset_witness :
  url_of (ApiJs.invoke {[ "REACT_APP_API_URL" := "" ]} ApiJs.fetchTeam [])
  = Some "http://localhost:8000/api/admin/team".
Proof.
  assert (Hset : ({[ "REACT_APP_API_URL" := "" ]} : gmap string string)
                 !! "REACT_APP_API_URL" = Some "") by reflexivity.
  pose proof (proj1 (empty_variable_is_unset _) Hset) as H.
  pose proof (Forall_lookup_1 _ _ 0%nat _ H eq_refl []) as H0.
  unfold url_of. cbn [ex_fn] in H0. rewrite H0. reflexivity.
Defined.

(** ** The base URL of [part_001] *)

(** Property X5.  Without a base URL the requests of [part_001] are relative to the
    page.  When [REACT_APP_BACKEND_URL] is unset or empty, the URL of
    every request is the bare path: [/api/admin/<resource>] and
    [/api/admin/<resource>/<id>] for team, vehicles and blogs,
    [/api/admin/site-settings] for the settings. *)
Theorem part_001_without_base_url (env : gmap string string) :
  default "" (env !! "REACT_APP_BACKEND_URL") = "" ->
  Forall (crud_routes (Part001.invoke env) "" Part001.exports)
    [Team; Vehicles; Blogs]
  /\ settings_routes (Part001.invoke env) "" Part001.exports.
Proof.
  intros H.
  assert (Ho : Part001.origin env = "")
    by (unfold Part001.origin; rewrite H; reflexivity).
  rewrite <- Ho. split;
    [apply Part001_crud_routes | apply Part001_settings_routes].
Qed.

Lemma part_001_without_base_url_witness :
  url_of (Part001.invoke ∅ Part001.deleteVehicle [VStr "v7"])
  = Some "/api/admin/vehicles/v7".
Proof.
  assert (H : default "" ((∅ : gmap string string)
                            !! "REACT_APP_BACKEND_URL") = "") by reflexivity.
  destruct (part_001_without_base_url ∅ H) as [Hc _].
  pose proof (Forall_lookup_1 _ _ 1%nat _ Hc eq_refl) as Hv.
  destruct Hv as (l & c & u & d & Hg & _ & _ & _ & Hd).
  injection Hg as <- <- <- <-.
  destruct (Hd (VStr "v7")) as (r & Hr & _ & Hu & _).
  cbn [ex_fn] in Hr. unfold url_of. rewrite Hr, Hu. reflexivity.
Defined.

(** Property X6.  One or two slashes at the end of [REACT_APP_BACKEND_URL] make no
    difference: for a value [o] that does not end in a slash, every export
    of [part_001] issues the same request whether the variable is [o],
    [o/] or [o//]. *)
Theorem part_001_final_slashes (env env1 env2 : gmap string string)
    (o : string) :
  ends_with_slash o = false ->
  env !! "REACT_APP_BACKEND_URL" = Some o ->
  env1 !! "REACT_APP_BACKEND_URL" = Some (o +:+ "/") ->
  env2 !! "REACT_APP_BACKEND_URL" = Some (o +:+ "//") ->
  same_outcomes (Part001.invoke env) (Part001.invoke env1) Part001.exports
  /\ same_outcomes (Part001.invoke env) (Part001.invoke env2) Part001.exports.
Proof.
  intros Ho H H1 H2.
  split; apply Part001_same_outcomes;
    rewrite (Part001_origin_set env o H Ho); unfold Part001.origin;
    rewrite ?H1, ?H2; symmetry.
  - apply (strip_trailing_slash_one o Ho).
  - apply (strip_trailing_slash_two o Ho).
Qed.

Lemma part_001_final_slashes_witness :
  url_of (Part001.invoke {[ "REACT_APP_BACKEND_URL" := "https://api.example.org//" ]}
            Part001.fetchTeam [])
  = Some "https://api.example.org/api/admin/team".
Proof.
  pose proof (part_001_final_slashes
                {[ "REACT_APP_BACKEND_URL" := "https://api.example.org" ]}
                {[ "REACT_APP_BACKEND_URL" := "https://api.example.org/" ]}
                {[ "REACT_APP_BACKEND_URL" := "https://api.example.org//" ]}
                "https://api.example.org" eq_refl eq_refl eq_refl eq_refl)
    as [_ H].
  pose proof (Forall_lookup_1 _ _ 0%nat _ H eq_refl []) as H0.
  unfold url_of. cbn [ex_fn] in H0. rewrite <- H0. reflexivity.
Defined.

(** ** The base URL of [api.js] *)

(** Property X7.  A non-empty [REACT_APP_API_URL] is used as it stands.  With the
    variable set to a non-empty [v], the base URL of the instance is
    [v/api] and the routes are [v/api/admin/<resource>],
    [v/api/admin/<resource>/<id>] and [v/api/admin/site-settings]; nothing
    is removed from or added to [v], so a slash at its end stays in the
    URL. *)
Theorem api_js_base_url_verbatim (env : gmap string string) (v : string) :
  env !! "REACT_APP_API_URL" = Some v ->
  String.eqb v "" = false ->
  baseURL (ApiJs.instance env) = Some (v +:+ "/api")
  /\ Forall (crud_routes (ApiJs.invoke env) v ApiJs.exports)
       [Team; Vehicles; Blogs]
  /\ settings_routes (ApiJs.invoke env) v ApiJs.exports.
Proof.
  intros H Hv. pose proof (ApiJs_origin_set env v H Hv) as Ho.
  split. { cbn [baseURL ApiJs.instance]. rewrite Ho. reflexivity. }
  rewrite <- Ho.
  split; [apply ApiJs_crud_routes | apply ApiJs_settings_routes].
Qed.

Lemma api_js_base_url_verbatim_witness :
  url_of (ApiJs.invoke {[ "REACT_APP_API_URL" := "https://api.example.org/" ]}
            ApiJs.fetchSiteSettings [])
  = Some "https://api.example.org//api/admin/site-settings".
Proof.
  assert (H : ({[ "REACT_APP_API_URL" := "https://api.example.org/" ]}
                 : gmap string string) !! "REACT_APP_API_URL"
              = Some "https://api.example.org/") by reflexivity.
  destruct (api_js_base_url_verbatim _ _ H eq_refl) as (_ & _ & Hs).
  destruct Hs as (f & u & Hg & (r & Hr & _ & Hu & _) & _).
  injection Hg as <- <-. cbn [ex_fn] in Hr.
  unfold url_of. rewrite Hr, Hu. reflexivity.
Defined.

(** ** Evaluating the modules *)

(** Property X8.  [api.js] and [part_001] can be imported in every environment:
    evaluating either file completes normally, its default export is the
    axios instance that its named exports send their requests through,
    and the file binds its import, its constants and its exports and no
    other name. *)
Theorem modules_load (env : gmap string string) :
  (ApiJs.module env ∅).1 = Normal (BInstance (ApiJs.instance env))
  /\ ApiJs.scope env !! "api" = Some (BInstance (ApiJs.instance env))
  /\ dom (ApiJs.scope env)
     = list_to_set (["axios"; "API_URL"; "api"] ++ map ex_name ApiJs.exports)
  /\ (Part001.module env ∅).1 = Normal (BInstance (Part001.instance env))
  /\ Part001.scope env !! "API" = Some (BInstance (Part001.instance env))
  /\ dom (Part001.scope env)
     = list_to_set (["axios"; "API"] ++ map ex_name Part001.exports).
Proof.
  split; [apply ApiJs_module_loads|].
  split; [apply ApiJs_scope_api|].
  split.
  { lazymatch goal with |- ?P => apply (bool_decide_unpack P) end.
    vm_compute. exact I. }
  split; [apply Part001_module_loads|].
  split; [apply Part001_scope_API|].
  lazymatch goal with |- ?P => apply (bool_decide_unpack P) end.
  unfold Part001.scope, Part001.module, Part001.API, getenv.
  destruct (env !! "REACT_APP_BACKEND_URL"); vm_compute; exact I.
Qed.

(** ** The exports that name [API], in a scope that binds it *)

Lemma buildFullPath_on (b q p : string) :
  q = String "/" p ->
  String.eqb b "" = false ->
  isAbsoluteURL q = false ->
  strip_leading_slashes p = p ->
  buildFullPath (Some b) q = strip_trailing_slash b +:+ q.
Proof. intros -> Hb Habs Hp. apply buildFullPath_rooted; assumption. Qed.

(** Property X9.  The routes the package functions of [api.js] name.  In any scope that
    binds [API] to an axios instance with a non-empty base URL [b] (a host
    that defines such a global, say), [fetchPackages] requests
    [GET b/packages], [createPackage] [POST b/admin/packages] with the
    payload, [updatePackage] [PUT b/admin/packages/<id>] with the payload
    and [deletePackage] [DELETE b/admin/packages/<id>], where [b] has lost
    the slashes axios removes from its end. *)
Theorem package_routes_when_bound
    (σ : gmap string binding) (cfg : AxiosConfig) (b : string) :
  σ !! "API" = Some (BInstance cfg) ->
  baseURL cfg = Some b ->
  String.eqb b "" = false ->
  issues (call_in σ ApiJs.fetchPackages []) GET
    (strip_trailing_slash b +:+ "/packages") VUndefined
  /\ (forall data,
        issues (call_in σ ApiJs.createPackage [data]) POST
          (strip_trailing_slash b +:+ "/admin/packages") data)
  /\ (forall id data,
        issues (call_in σ ApiJs.updatePackage [id; data]) PUT
          (strip_trailing_slash b +:+ "/admin/packages/" +:+ to_string id)
          data)
  /\ (forall id,
        issues (call_in σ ApiJs.deletePackage [id]) DELETE
          (strip_trailing_slash b +:+ "/admin/packages/" +:+ to_string id)
          VUndefined).
Proof.
  intros Hσ Hb Hne.
  repeat split; intros;
    unfold issues, call_in; cbn [call arg nth];
    cbv delta [ApiJs.fetchPackages ApiJs.createPackage ApiJs.updatePackage
               ApiJs.deletePackage];
    cbn [call]; rewrite (run_bound σ "API" _ _ Hσ);
    (eexists; split; [reflexivity|]);
    cbn [req_method req_url req_data dispatch];
    (split; [reflexivity|]); (split; [|reflexivity]);
    rewrite Hb;
    (etrans; [eapply buildFullPath_on; first [exact Hne | reflexivity]
             | reflexivity]).
Qed.

Lemma package_routes_when_bound_witness :
  issues
    (call_in (<["API" := BInstance (ApiJs.instance ∅)]> (ApiJs.scope ∅))
       ApiJs.fetchPackages [])
    GET "http://localhost:8000/api/packages" VUndefined.
Proof.
  assert (Hσ : (<["API" := BInstance (ApiJs.instance ∅)]> (ApiJs.scope ∅))
               !! "API" = Some (BInstance (ApiJs.instance ∅)))
    by apply lookup_insert_eq.
  exact (proj1 (package_routes_when_bound _ (ApiJs.instance ∅)
                  "http://localhost:8000/api" Hσ eq_refl eq_refl)).
Defined.

Lemma Part002_url env (q p : string) :
  q = String "/" p ->
  isAbsoluteURL q = false ->
  strip_leading_slashes p = p ->
  buildFullPath (baseURL (Part002.instance env)) q
  = (to_string (Part002.API_URL env) +:+ "/api") +:+ q.
Proof.
  intros -> Habs Hp. cbn [baseURL Part002.instance].
  rewrite buildFullPath_rooted by (try apply app_nonempty; assumption).
  rewrite strip_trailing_slash_id by (rewrite ends_with_slash_app; reflexivity).
  reflexivity.
Qed.

(** Property X10.  The routes the functions of [part_002] name.  In any scope that binds
    [API] to the instance this file creates under the name [api], the
    functions reach [<origin>/api/api/admin/<resource>] and
    [<origin>/api/api/admin/<resource>/<id>]: the [/api] of the base URL
    and the [/api] of the paths add up. *)
Theorem part_002_routes_when_bound
    (env : gmap string string) (σ : gmap string binding) :
  σ !! "API" = Some (BInstance (Part002.instance env)) ->
  Forall (crud_routes (call_in σ)
            (to_string (Part002.API_URL env) +:+ "/api") Part002.exports)
    [Team; Vehicles; Blogs]
  /\ settings_routes (call_in σ)
       (to_string (Part002.API_URL env) +:+ "/api") Part002.exports.
Proof.
  intros Hσ.
  split.
  - solve_routes
      ltac:(unfold call_in; cbn [call ex_fn arg nth];
            cbv delta [Part002.fetchTeam Part002.addTeamMember
              Part002.updateTeamMember Part002.deleteTeamMember
              Part002.fetchVehicles Part002.createVehicle
              Part002.updateVehicle Part002.deleteVehicle Part002.fetchBlogs
              Part002.createBlog Part002.updateBlog Part002.deleteBlog];
            cbn [call]; rewrite (run_bound σ "API" _ _ Hσ))
      (Part002_url env).
  - eexists _, _; (split; [reflexivity|]).
    split; intros;
      solve_issues
        ltac:(unfold call_in; cbn [call ex_fn arg nth];
              cbv delta [Part002.fetchSiteSettings Part002.updateSiteSettings];
              cbn [call]; rewrite (run_bound σ "API" _ _ Hσ))
        (Part002_url env).
Qed.

Lemma part_002_routes_when_bound_witness :
  url_of
    (call_in (<["API" := BInstance (Part002.instance ∅)]> (Part002.scope ∅))
       Part002.fetchTeam [])
  = Some "http://localhost:8000/api/api/admin/team".
Proof.
  assert (Hσ : (<["API" := BInstance (Part002.instance ∅)]>
                  (Part002.scope ∅))
               !! "API" = Some (BInstance (Part002.instance ∅)))
    by apply lookup_insert_eq.
  destruct (part_002_routes_when_bound ∅ _ Hσ) as [Hc _].
  pose proof (Forall_lookup_1 _ _ 0%nat _ Hc eq_refl) as Ht.
  destruct Ht as (l & c & u & d & Hg & (r & Hr & _ & Hu & _) & _).
  injection Hg as <- <- <- <-. cbn [ex_fn] in Hr.
  unfold url_of. rewrite Hr, Hu. reflexivity.
Defined.
